(** * treys: the poker hand evaluator of [treys/evaluator.py]

    A shallow embedding of the classes [Evaluator] and [PLOEvaluator]:
    Python integers are [Z] (unbounded, with the two's complement reading of
    [&], [|] and [>>] that [Z.land], [Z.lor] and [Z.shiftr] share with
    Python), sequences of cards are [list Z], dictionaries are [gmap]s, and
    a call that can raise returns a [result]. *)

From Stdlib Require Import ZArith List Permutation Lia.
From Corelib Require Import SpecFloat.
From stdpp Require Import base option list gmap strings.

Local Open Scope Z_scope.

(** ** Exceptions and results *)

(** The exceptions the evaluator can raise.  [KeyError] carries the missing
    key; [AssertionError] and [Exception] carry their message. *)
Inductive exn : Type :=
  | KeyError (key : Z)
  | IndexError
  | AssertionError (msg : string)
  | Exception (msg : string)
  | ZeroDivisionError
  | OverflowError
  | UnboundLocalError.

Inductive result (A : Type) : Type :=
  | Ok (a : A)
  | Raise (e : exn).
Arguments Ok {A} a.
Arguments Raise {A} e.

#[global] Instance result_ret : MRet result := fun A a => Ok a.
#[global] Instance result_bind : MBind result := fun A B f m =>
  match m with
  | Ok a => f a
  | Raise e => Raise e
  end.

(** [seq[i]] for a non-negative index. *)
Definition getitem {A} (seq : list A) (i : nat) : result A :=
  match seq !! i with
  | Some x => Ok x
  | None => Raise IndexError
  end.

(** [d[k]] on a dictionary with integer keys. *)
Definition dict_get {V} (d : gmap Z V) (k : Z) : result V :=
  match d !! k with
  | Some v => Ok v
  | None => Raise (KeyError k)
  end.

(** [for x in xs: s = body(s, x)], leaving at the first exception. *)
Fixpoint for_each {S A} (xs : list A) (body : S -> A -> result S) (s : S)
  : result S :=
  match xs with
  | [] => Ok s
  | x :: xs' => s' ← body s x; for_each xs' body s'
  end.

(** [itertools.combinations(l, r)]: the [r]-element subsequences of [l], in
    lexicographic order of their positions. *)
Fixpoint combinations {A} (l : list A) (r : nat) : list (list A) :=
  match r with
  | O => [[]]
  | S r' =>
      match l with
      | [] => []
      | x :: xs => map (cons x) (combinations xs r') ++ combinations xs r
      end
  end.

(** ** Floats

    Python's [float] is IEEE 754 binary64, here [spec_float] at precision
    53 and maximal exponent 1024 with round-to-nearest-even. *)
Module Float.
Definition prec : Z := 53.
Definition emax : Z := 1024.

(** [float(z)]: the nearest binary64, [OverflowError] when that is an
    infinity. *)
Definition of_int (z : Z) : result spec_float :=
  match binary_normalize prec emax z 0 false with
  | S754_infinity _ => Raise OverflowError
  | f => Ok f
  end.

(** [x / y] on floats. *)
Definition truediv (x y : spec_float) : result spec_float :=
  match y with
  | S754_zero _ => Raise ZeroDivisionError
  | _ => Ok (SFdiv prec emax x y)
  end.

Definition sub (x y : spec_float) : spec_float := SFsub prec emax x y.

Definition zero : spec_float := S754_zero false.
Definition one : spec_float := S754_finite false 4503599627370496 (-52).
End Float.

(** ** The collaborators: [Card] and [LookupTable] *)

(** Modelled from the spec: [card.py] is not among the sources.  The spec
    has every encoded card carry "an embedded prime number unique per rank"
    and leaves the bit offsets to the card encoding, so the extraction of
    that prime and the table of rank primes are the two fields of this
    record. *)
Record CardCodec : Type := {
  card_prime : Z -> Z;
  PRIMES : list Z
}.

Module Card.
Section WithCodec.
Context (K : CardCodec).

(** Modelled from the spec: [Card.prime_product_from_hand], "product of
    each card's embedded rank-prime". *)
Definition prime_product_from_hand (card_ints : list Z) : Z :=
  fold_left (fun product c => product * card_prime K c) card_ints 1.

(** Modelled from the spec: [Card.prime_product_from_rankbits], "product
    of rank-primes corresponding to set bits in a combined
    rank-bitmask". *)
Definition prime_product_from_rankbits (rankbits : Z) : Z :=
  fold_left
    (fun product '(i, p) =>
       if Z.testbit rankbits (Z.of_nat i) then product * p else product)
    (imap pair (PRIMES K)) 1.
End WithCodec.
End Card.

(** Modelled from the spec: [lookup.py] is not among the sources.  Its class
    constants (the ten [MAX_...] cut points the evaluator names, the map from
    cut point to rank class and the map from rank class to label) and the
    two tables an instance holds are the fields of this record. *)
Record LookupTable : Type := {
  MAX_ROYAL_FLUSH : Z;
  MAX_STRAIGHT_FLUSH : Z;
  MAX_FOUR_OF_A_KIND : Z;
  MAX_FULL_HOUSE : Z;
  MAX_FLUSH : Z;
  MAX_STRAIGHT : Z;
  MAX_THREE_OF_A_KIND : Z;
  MAX_TWO_PAIR : Z;
  MAX_PAIR : Z;
  MAX_HIGH_CARD : Z;
  MAX_TO_RANK_CLASS : gmap Z Z;
  RANK_CLASS_TO_STRING : gmap Z string;
  flush_lookup : gmap Z Z;
  unsuited_lookup : gmap Z Z
}.

(** ** class Evaluator *)

Module Evaluator.
Definition HAND_LENGTH : nat := 2.
Definition BOARD_LENGTH : nat := 5.

Section WithTables.
Context (K : CardCodec) (T : LookupTable).

Definition _five (cards : list Z) : result Z :=
  c0 ← getitem cards 0;
  c1 ← getitem cards 1;
  c2 ← getitem cards 2;
  c3 ← getitem cards 3;
  c4 ← getitem cards 4;
  if bool_decide
       (Z.land (Z.land (Z.land (Z.land (Z.land c0 c1) c2) c3) c4) 0xF000
        ≠ 0)
  then
    let handOR :=
      Z.shiftr (Z.lor (Z.lor (Z.lor (Z.lor c0 c1) c2) c3) c4) 16 in
    let prime := Card.prime_product_from_rankbits K handOR in
    dict_get (flush_lookup T) prime
  else
    let prime := Card.prime_product_from_hand K cards in
    dict_get (unsuited_lookup T) prime.

(** The loop body shared by [_six], [_seven] and the Omaha evaluator:
    [score = self._five(combo); if score < minimum: minimum = score]. *)
Definition keep_minimum (minimum : Z) (combo : list Z) : result Z :=
  score ← _five combo;
  if bool_decide (score < minimum) then Ok score else Ok minimum.

Definition _six (cards : list Z) : result Z :=
  let minimum := MAX_HIGH_CARD T in
  for_each (combinations cards 5) keep_minimum minimum.

Definition _seven (cards : list Z) : result Z :=
  let minimum := MAX_HIGH_CARD T in
  for_each (combinations cards 5) keep_minimum minimum.

Definition hand_size_map : gmap Z (list Z -> result Z) :=
  {[ 5 := _five; 6 := _six; 7 := _seven ]}.

Definition evaluate (hand board : list Z) : result Z :=
  let all_cards := hand ++ board in
  handler ← dict_get hand_size_map (Z.of_nat (length all_cards));
  handler all_cards.

Definition get_rank_class (hr : Z) : result Z :=
  if (hr >=? 0) && (hr <=? MAX_ROYAL_FLUSH T) then
    dict_get (MAX_TO_RANK_CLASS T) (MAX_ROYAL_FLUSH T)
  else if hr <=? MAX_STRAIGHT_FLUSH T then
    dict_get (MAX_TO_RANK_CLASS T) (MAX_STRAIGHT_FLUSH T)
  else if hr <=? MAX_FOUR_OF_A_KIND T then
    dict_get (MAX_TO_RANK_CLASS T) (MAX_FOUR_OF_A_KIND T)
  else if hr <=? MAX_FULL_HOUSE T then
    dict_get (MAX_TO_RANK_CLASS T) (MAX_FULL_HOUSE T)
  else if hr <=? MAX_FLUSH T then
    dict_get (MAX_TO_RANK_CLASS T) (MAX_FLUSH T)
  else if hr <=? MAX_STRAIGHT T then
    dict_get (MAX_TO_RANK_CLASS T) (MAX_STRAIGHT T)
  else if hr <=? MAX_THREE_OF_A_KIND T then
    dict_get (MAX_TO_RANK_CLASS T) (MAX_THREE_OF_A_KIND T)
  else if hr <=? MAX_TWO_PAIR T then
    dict_get (MAX_TO_RANK_CLASS T) (MAX_TWO_PAIR T)
  else if hr <=? MAX_PAIR T then
    dict_get (MAX_TO_RANK_CLASS T) (MAX_PAIR T)
  else if hr <=? MAX_HIGH_CARD T then
    dict_get (MAX_TO_RANK_CLASS T) (MAX_HIGH_CARD T)
  else
    Raise (Exception "Inavlid hand rank, cannot return rank class").

Definition class_to_string (class_int : Z) : result string :=
  dict_get (RANK_CLASS_TO_STRING T) class_int.

Definition get_five_card_rank_percentage (hand_rank : Z)
  : result spec_float :=
  x ← Float.of_int hand_rank;
  y ← Float.of_int (MAX_HIGH_CARD T);
  Float.truediv x y.

Definition stages : list string := ["FLOP"; "TURN"; "RIVER"].

(** [hand_summary] calls [self.evaluate], which a subclass overrides:
    the method is the argument [self_evaluate] here.  [hands] is the
    dictionary's [items()], in insertion order. *)
Section HandSummary.
Context {P : Type} (self_evaluate : list Z -> list Z -> result Z).

(** One pass of the inner loop, on the state
    [(best_rank, winners)]. *)
Definition detect_winner (board : list Z) (i : nat)
    (st : Z * list P) (item : P * list Z) : result (Z * list P) :=
  let '(best_rank, winners) := st in
  let '(player, hand) := item in
  rank ← self_evaluate hand (take (i + 3) board);
  rank_class ← get_rank_class rank;
  class_string ← class_to_string rank_class;
  scaled ← get_five_card_rank_percentage rank;
  let percentage := Float.sub Float.one scaled in
  if bool_decide (rank = best_rank) then
    Ok (rank, winners ++ [player])
  else if bool_decide (rank < best_rank) then
    Ok (rank, [player])
  else
    Ok (best_rank, winners).

(** One pass of the outer loop: [winners] is rebound to the street's
    list.  The string [line], built and never read, is left out. *)
Definition street (board : list Z) (hands : list (P * list Z))
    (winners : option (list P)) (i : nat) : result (option (list P)) :=
  let best_rank := 7463 in
  st ← for_each hands (detect_winner board i) (best_rank, []);
  Ok (Some (snd st)).

Definition hand_summary_of (board : list Z) (hands : list (P * list Z))
  : result (list P) :=
  if bool_decide (length board = BOARD_LENGTH) then
    winners ← for_each (seq 0 (length stages)) (street board hands) None;
    match winners with
    | Some w => Ok w
    | None => Raise UnboundLocalError
    end
  else Raise (AssertionError "Invalid board length").
End HandSummary.

Definition hand_summary {P} (board : list Z) (hands : list (P * list Z))
  : result (list P) :=
  hand_summary_of evaluate board hands.
End WithTables.
End Evaluator.

(** ** class PLOEvaluator(Evaluator) *)

Module PLOEvaluator.
Definition HAND_LENGTH : nat := 4.

Section WithTables.
Context (K : CardCodec) (T : LookupTable).

Definition evaluate (hand board : list Z) : result Z :=
  let minimum := MAX_HIGH_CARD T in
  for_each (combinations hand 2)
    (fun minimum hand_combo =>
       for_each (combinations board 3)
         (fun minimum board_combo =>
            Evaluator.keep_minimum K T minimum (board_combo ++ hand_combo))
         minimum)
    minimum.

Definition hand_summary {P} (board : list Z) (hands : list (P * list Z))
  : result (list P) :=
  Evaluator.hand_summary_of T evaluate board hands.
End WithTables.
End PLOEvaluator.


(** ** Sample data

    A card encoding and a fragment of a lookup table on which the
    definitions above run: Cactus Kev's layout, which the masks [0xF000] and
    [>> 16] of [_five] presuppose (rank bit from bit 16 up, the one-hot suit
    in bits 12 to 15, the rank in bits 8 to 11 and the rank's prime in the
    low byte), the cut points of his ranking of the 7462 hands, with the
    royal flush, rank 1, a class of its own, and the table entries of the
    hands used below. *)
Module Sample.
Definition rank_primes : list Z := [2; 3; 5; 7; 11; 13; 17; 19; 23; 29; 31; 37; 41].

Definition codec : CardCodec :=
  {| card_prime := fun c => Z.land c 0xFF; PRIMES := rank_primes |}.

(** The card of rank [rank_int] (0 for a deuce up to 12 for an ace) and
    suit bit [suit_int]. *)
Definition card (rank_int suit_int : Z) : Z :=
  let rank_prime := nth (Z.to_nat rank_int) rank_primes 0 in
  let bitrank := Z.shiftl (Z.shiftl 1 rank_int) 16 in
  let suit := Z.shiftl suit_int 12 in
  let rank := Z.shiftl rank_int 8 in
  Z.lor (Z.lor (Z.lor bitrank suit) rank) rank_prime.

Definition spades : Z := 1.
Definition hearts : Z := 2.
Definition diamonds : Z := 4.
Definition clubs : Z := 8.

Definition As : Z := card 12 spades.
Definition Ah : Z := card 12 hearts.
Definition Ad : Z := card 12 diamonds.
Definition Ac : Z := card 12 clubs.
Definition Ks : Z := card 11 spades.
Definition Kh : Z := card 11 hearts.
Definition Kd : Z := card 11 diamonds.
Definition Kc : Z := card 11 clubs.
Definition Qs : Z := card 10 spades.
Definition Js : Z := card 9 spades.
Definition Ts : Z := card 8 spades.

Definition table : LookupTable :=
  {| MAX_ROYAL_FLUSH := 1;
     MAX_STRAIGHT_FLUSH := 10;
     MAX_FOUR_OF_A_KIND := 166;
     MAX_FULL_HOUSE := 322;
     MAX_FLUSH := 1599;
     MAX_STRAIGHT := 1609;
     MAX_THREE_OF_A_KIND := 2467;
     MAX_TWO_PAIR := 3325;
     MAX_PAIR := 6185;
     MAX_HIGH_CARD := 7462;
     MAX_TO_RANK_CLASS :=
       list_to_map
         [(1, 0); (10, 1); (166, 2); (322, 3); (1599, 4); (1609, 5);
          (2467, 6); (3325, 7); (6185, 8); (7462, 9)];
     RANK_CLASS_TO_STRING :=
       list_to_map
         [(0, "Royal Flush"); (1, "Straight Flush"); (2, "Four of a Kind");
          (3, "Full House"); (4, "Flush"); (5, "Straight");
          (6, "Three of a Kind"); (7, "Two Pair"); (8, "Pair");
          (9, "High Card")];
     (* A K Q J T of one suit *)
     flush_lookup := list_to_map [(41 * 37 * 31 * 29 * 23, 1)];
     unsuited_lookup :=
       list_to_map
         [(41 * 41 * 41 * 41 * 37, 11);      (* A A A A K *)
          (37 * 37 * 37 * 37 * 41, 23);      (* K K K K A *)
          (37 * 37 * 37 * 37 * 31, 24);      (* K K K K Q *)
          (41 * 41 * 41 * 37 * 37, 167);     (* A A A K K *)
          (37 * 37 * 37 * 41 * 41, 179);     (* K K K A A *)
          (37 * 37 * 37 * 41 * 31, 1676);    (* K K K A Q *)
          (41 * 41 * 37 * 37 * 31, 2468)]    (* A A K K Q *)
  |}.

Definition royal_flush : list Z := [As; Ks; Qs; Js; Ts].
End Sample.

(** ** The vocabulary of the properties *)

(** The fields of an encoded card that [_five] reads. *)
Definition suit_field (c : Z) : Z := Z.land c 0xF000.
Definition rank_bits (c : Z) : Z := Z.shiftr c 16.

(** Bitwise AND and OR of all the elements of a list. *)
Definition and_all (l : list Z) : Z := foldr Z.land (-1) l.
Definition or_all (l : list Z) : Z := foldr Z.lor 0 l.

(** The five-card score as the specification words it: a flush test on the
    suit fields, then one lookup. *)
Definition score_five (K : CardCodec) (T : LookupTable) (cards : list Z)
  : result Z :=
  if bool_decide (and_all (suit_field <$> cards) ≠ 0) then
    dict_get (flush_lookup T)
      (Card.prime_product_from_rankbits K (or_all (rank_bits <$> cards)))
  else
    dict_get (unsuited_lookup T) (Card.prime_product_from_hand K cards).

(** The candidates of the best-of search, as the specification words them:
    the five-card subsets of the cards at hand, each a subsequence. *)
Definition five_card_subsets (cards s : list Z) : Prop :=
  sublist s cards /\ length s = 5%nat.

(** The Omaha candidates: three cards of the board and two of the hole
    cards. *)
Definition omaha_hands (hand board s : list Z) : Prop :=
  exists hole shared,
    sublist hole hand /\ length hole = 2%nat /\
    sublist shared board /\ length shared = 3%nat /\
    s = shared ++ hole.

(** [m] is the minimum of the five-card scores over [candidates]: every
    candidate scores, none scores below [m], and one scores [m]. *)
Definition minimum_score (K : CardCodec) (T : LookupTable)
    (candidates : list Z -> Prop) (m : Z) : Prop :=
  (exists s, candidates s /\ Evaluator._five K T s = Ok m) /\
  (forall s, candidates s ->
             exists r, Evaluator._five K T s = Ok r /\ m <= r).

(** A call returned a rank between 1 and 7462. *)
Definition rank_in_range (r : result Z) : bool :=
  match r with
  | Ok r => (1 <=? r) && (r <=? 7462)
  | Raise _ => false
  end.

(** Every table lookup that scoring [combos] makes yields a rank between 1
    and 7462. *)
Definition lookups_in_range (K : CardCodec) (T : LookupTable)
    (combos : list (list Z)) : bool :=
  forallb (fun combo => rank_in_range (Evaluator._five K T combo)) combos.

(** The five-card hands the Omaha evaluator scores, in the order of its
    two loops. *)
Definition omaha_candidates (hand board : list Z) : list (list Z) :=
  hand_combo ← combinations hand 2;
  (fun board_combo => board_combo ++ hand_combo) <$> combinations board 3.

(** The ten cut points, in the order [get_rank_class] tests them. *)
Definition cut_points (T : LookupTable) : list Z :=
  [MAX_ROYAL_FLUSH T; MAX_STRAIGHT_FLUSH T; MAX_FOUR_OF_A_KIND T;
   MAX_FULL_HOUSE T; MAX_FLUSH T; MAX_STRAIGHT T; MAX_THREE_OF_A_KIND T;
   MAX_TWO_PAIR T; MAX_PAIR T; MAX_HIGH_CARD T].

Fixpoint ascending (l : list Z) : bool :=
  match l with
  | x :: (y :: _) as l' => (x <=? y) && ascending l'
  | _ => true
  end.

(** What the specification says of the constants: the cut points ascend up
    to 7462, the worst rank, and each has a rank class. *)
Definition constants_ok (T : LookupTable) : bool :=
  ascending (cut_points T)
  && (MAX_HIGH_CARD T =? 7462)
  && forallb (fun k => bool_decide (is_Some (MAX_TO_RANK_CLASS T !! k)))
       (cut_points T).

(** Ascending cut points have ascending rank classes. *)
Definition classes_ascending (T : LookupTable) : bool :=
  match mapM (fun k => MAX_TO_RANK_CLASS T !! k) (cut_points T) with
  | Some classes => ascending classes
  | None => false
  end.

(** Every rank class of a cut point has a label. *)
Definition labels_ok (T : LookupTable) : bool :=
  forallb
    (fun k =>
       match MAX_TO_RANK_CLASS T !! k with
       | Some c => bool_decide (is_Some (RANK_CLASS_TO_STRING T !! c))
       | None => false
       end)
    (cut_points T).

(** The cut point [get_rank_class] settles on, [None] past the last. *)
Definition chosen_cut_point (T : LookupTable) (hr : Z) : option Z :=
  if (hr >=? 0) && (hr <=? MAX_ROYAL_FLUSH T) then Some (MAX_ROYAL_FLUSH T)
  else if hr <=? MAX_STRAIGHT_FLUSH T then Some (MAX_STRAIGHT_FLUSH T)
  else if hr <=? MAX_FOUR_OF_A_KIND T then Some (MAX_FOUR_OF_A_KIND T)
  else if hr <=? MAX_FULL_HOUSE T then Some (MAX_FULL_HOUSE T)
  else if hr <=? MAX_FLUSH T then Some (MAX_FLUSH T)
  else if hr <=? MAX_STRAIGHT T then Some (MAX_STRAIGHT T)
  else if hr <=? MAX_THREE_OF_A_KIND T then Some (MAX_THREE_OF_A_KIND T)
  else if hr <=? MAX_TWO_PAIR T then Some (MAX_TWO_PAIR T)
  else if hr <=? MAX_PAIR T then Some (MAX_PAIR T)
  else if hr <=? MAX_HIGH_CARD T then Some (MAX_HIGH_CARD T)
  else None.

(** The float of 7462, exactly. *)
Definition worst_rank_float : spec_float :=
  S754_finite false 8204555766464512 (-40).

(** What a call returned lies in the interval from 0.0, excluded, to 1.0,
    included. *)
Definition positive_fraction (r : result spec_float) : bool :=
  match r with
  | Ok f => SFltb Float.zero f && SFleb f Float.one
  | Raise _ => false
  end.

(** All the valid ranks, 1 to 7462. *)
Definition valid_ranks : list Z := Z.of_nat <$> seq 1 (Z.to_nat 7462).

(** The leader set of a street, as the specification words it: going
    through the players' ranks with the best rank seen so far, a rank that
    strictly improves on it resets the leaders to that player, and a rank
    that ties it appends the player. *)
Definition lead {P} (st : Z * list P) (pr : P * Z) : Z * list P :=
  let '(best, leading) := st in
  let '(player, rank) := pr in
  if bool_decide (rank < best) then (rank, [player])
  else if bool_decide (rank = best) then (best, leading ++ [player])
  else (best, leading).

Definition leaders {P} (ranks : list (P * Z)) : list P :=
  snd (fold_left lead ranks (7463, [])).

(** On the flop, the turn and the river, [self_evaluate] gives every hand a
    rank between 1 and 7462. *)
Definition streets_in_range {P} (self_evaluate : list Z -> list Z -> result Z)
    (board : list Z) (hands : list (P * list Z)) : bool :=
  forallb
    (fun n =>
       forallb
         (fun item : P * list Z =>
            rank_in_range (self_evaluate (snd item) (take n board)))
         hands)
    [3; 4; 5]%nat.

(** A call left with an [AssertionError]. *)
Definition raises_assertion {A} (r : result A) : Prop :=
  exists msg, r = Raise (AssertionError msg).

(** The ranks of the players' hands on the cards of a street: [ranks] pairs
    each player of [hands], in order, with the rank [self_evaluate] returns
    for that player's hand. *)
Definition ranks_on {P} (self_evaluate : list Z -> list Z -> result Z)
    (cards : list Z) (hands : list (P * list Z)) (ranks : list (P * Z))
  : Prop :=
  Forall2
    (fun (item : P * list Z) (pr : P * Z) =>
       pr.1 = item.1 /\ self_evaluate item.2 cards = Ok pr.2)
    hands ranks.

(** Every rank of the list is between 1 and 7462. *)
Definition ranks_valid {P} (ranks : list (P * Z)) : Prop :=
  Forall (fun pr : P * Z => 1 <= pr.2 <= 7462) ranks.

(** Every combination of [combos] gets a score: no lookup misses. *)
Definition scores_defined (K : CardCodec) (T : LookupTable)
    (combos : list (list Z)) : bool :=
  forallb
    (fun combo =>
       match Evaluator._five K T combo with
       | Ok _ => true
       | Raise _ => false
       end)
    combos.

(** The float of a rank divided by the float of 7462. *)
Definition scaled_rank (r : Z) : result spec_float :=
  x ← Float.of_int r;
  Ok (SFdiv Float.prec Float.emax x worst_rank_float).

(** Both calls returned a positive finite float, the first one strictly
    below the second. *)
Definition strictly_below (r1 r2 : result spec_float) : bool :=
  match r1, r2 with
  | Ok (S754_finite false m1 e1), Ok (S754_finite false m2 e2) =>
      SFltb (S754_finite false m1 e1) (S754_finite false m2 e2)
  | _, _ => false
  end.

(** * Properties *)

(** ** The five-card scorer *)

Section FiveCards.
Context (K : CardCodec) (T : LookupTable).

Lemma suit_and_of_five (c0 c1 c2 c3 c4 : Z) :
  Z.land (Z.land (Z.land (Z.land (Z.land c0 c1) c2) c3) c4) 0xF000
  = and_all (suit_field <$> [c0; c1; c2; c3; c4]).
Proof.
  apply Z.bits_inj'; intros n Hn.
  cbn [and_all foldr fmap list_fmap]. unfold suit_field.
  rewrite !Z.land_spec, Z.bits_m1 by exact Hn.
  repeat match goal with
         | |- context [Z.testbit ?a n] =>
             is_var a; destruct (Z.testbit a n)
         end;
    destruct (Z.testbit 61440 n); reflexivity.
Qed.

Lemma rank_or_of_five (c0 c1 c2 c3 c4 : Z) :
  Z.shiftr (Z.lor (Z.lor (Z.lor (Z.lor c0 c1) c2) c3) c4) 16
  = or_all (rank_bits <$> [c0; c1; c2; c3; c4]).
Proof.
  cbn [or_all foldr fmap list_fmap]. unfold rank_bits.
  rewrite !Z.shiftr_lor, Z.lor_0_r, !Z.lor_assoc. reflexivity.
Qed.

(** [_five] on five cards is the specification's [score_five]. *)
Lemma five_is_score_five (cards : list Z) :
  length cards = 5%nat ->
  Evaluator._five K T cards = score_five K T cards.
Proof.
  intros Hlen.
  destruct cards as [|c0 [|c1 [|c2 [|c3 [|c4 [|c5 rest]]]]]]; try discriminate.
  unfold Evaluator._five, score_five. cbn [getitem lookup list_lookup mbind result_bind].
  rewrite suit_and_of_five, rank_or_of_five. reflexivity.
Qed.

Lemma and_all_perm (l1 l2 : list Z) : l1 ≡ₚ l2 -> and_all l1 = and_all l2.
Proof.
  unfold and_all. induction 1 as [|x l1 l2 _ IH|x y l|l1 l2 l3 _ IH1 _ IH2]; cbn [foldr].
  - reflexivity.
  - now rewrite IH.
  - rewrite !Z.land_assoc, (Z.land_comm y x). reflexivity.
  - now rewrite IH1.
Qed.

Lemma or_all_perm (l1 l2 : list Z) : l1 ≡ₚ l2 -> or_all l1 = or_all l2.
Proof.
  unfold or_all. induction 1 as [|x l1 l2 _ IH|x y l|l1 l2 l3 _ IH1 _ IH2]; cbn [foldr].
  - reflexivity.
  - now rewrite IH.
  - rewrite !Z.lor_assoc, (Z.lor_comm y x). reflexivity.
  - now rewrite IH1.
Qed.

Lemma prime_product_from_hand_perm (l1 l2 : list Z) :
  l1 ≡ₚ l2 ->
  Card.prime_product_from_hand K l1 = Card.prime_product_from_hand K l2.
Proof.
  unfold Card.prime_product_from_hand. generalize 1.
  intros acc Hperm. revert acc.
  induction Hperm as [|x l1 l2 _ IH|x y l|l1 l2 l3 _ IH1 _ IH2];
    intros acc; cbn [fold_left].
  - reflexivity.
  - apply IH.
  - f_equal. lia.
  - now rewrite IH1.
Qed.

Lemma score_five_perm (l1 l2 : list Z) :
  l1 ≡ₚ l2 -> score_five K T l1 = score_five K T l2.
Proof.
  intros Hperm. unfold score_five.
  rewrite (and_all_perm (suit_field <$> l1) (suit_field <$> l2))
    by now apply fmap_Permutation.
  rewrite (or_all_perm (rank_bits <$> l1) (rank_bits <$> l2))
    by now apply fmap_Permutation.
  rewrite (prime_product_from_hand_perm l1 l2 Hperm). reflexivity.
Qed.

(** C1. On every sequence of exactly five encoded cards, [_five] returns
    [flush_lookup] at the prime product of the OR of the cards' rank-bit
    fields when the AND of the five suit fields is not zero, and
    [unsuited_lookup] at [prime_product_from_hand] of the cards otherwise
    (a missing key being the dictionary's [KeyError]). *)
Theorem five_flush_or_unsuited (cards : list Z) :
  length cards = 5%nat ->
  (and_all (suit_field <$> cards) ≠ 0 ->
   Evaluator._five K T cards
   = dict_get (flush_lookup T)
       (Card.prime_product_from_rankbits K (or_all (rank_bits <$> cards))))
  /\ (and_all (suit_field <$> cards) = 0 ->
      Evaluator._five K T cards
      = dict_get (unsuited_lookup T) (Card.prime_product_from_hand K cards)).
Proof.
  intros Hlen. rewrite (five_is_score_five cards Hlen). unfold score_five.
  split; intros Hsuit.
  - rewrite bool_decide_eq_true_2 by exact Hsuit. reflexivity.
  - rewrite bool_decide_eq_false_2 by (intros Hne; apply Hne, Hsuit). reflexivity.
Qed.

(** C10. [_five] is invariant under permutation: on every sequence of
    exactly five encoded cards and every reordering of it, it returns the
    same result. *)
Theorem five_permutation_invariant (cards cards' : list Z) :
  length cards = 5%nat ->
  cards ≡ₚ cards' ->
  Evaluator._five K T cards = Evaluator._five K T cards'.
Proof.
  intros Hlen Hperm.
  assert (Hlen' : length cards' = 5%nat)
    by (rewrite <- Hlen; symmetry; apply Permutation_length, Hperm).
  rewrite (five_is_score_five cards Hlen), (five_is_score_five cards' Hlen').
  apply score_five_perm, Hperm.
Qed.

End FiveCards.

(** ** Enumerating combinations *)

Section Combinations.
Context {A : Type}.
Implicit Types (l s : list A) (r : nat).

(** [combinations l r] lists exactly the subsequences of [l] of length [r]. *)
Lemma elem_of_combinations l r s :
  s ∈ combinations l r <-> sublist s l /\ length s = r.
Proof.
  revert r s. induction l as [|x l IH]; intros [|r] s; cbn [combinations].
  - rewrite list_elem_of_singleton, sublist_nil_r.
    split; [intros ->; auto | intros [-> _]; reflexivity].
  - rewrite elem_of_nil, sublist_nil_r.
    split; [contradiction | intros [-> Hlen]; discriminate].
  - rewrite list_elem_of_singleton. split.
    + intros ->. split; [apply sublist_nil_l | reflexivity].
    + intros [_ Hlen]. destruct s; [reflexivity | discriminate].
  - rewrite elem_of_app, list_elem_of_fmap, sublist_cons_r. split.
    + intros [(s' & -> & Hs')|Hs].
      * apply IH in Hs' as [Hsub Hlen].
        split; [right; eauto | cbn; congruence].
      * apply IH in Hs as [Hsub Hlen]. auto.
    + intros [[Hsub|(s' & -> & Hsub)] Hlen].
      * right. apply IH. auto.
      * left. exists s'. split; [reflexivity|].
        apply IH. split; [exact Hsub | cbn in Hlen; congruence].
Qed.

Lemma combinations_nonempty l r :
  (r <= length l)%nat -> combinations l r <> [].
Proof.
  intros Hle Hnil.
  assert (Hin : take r l ∈ combinations l r).
  { apply elem_of_combinations. split; [apply sublist_take|].
    rewrite length_take. lia. }
  rewrite Hnil in Hin. now apply elem_of_nil in Hin.
Qed.

(** Six cards have 6 five-card combinations and seven cards have 21. *)
Lemma combinations_five_count l :
  (length l = 6%nat -> length (combinations l 5) = 6%nat)
  /\ (length l = 7%nat -> length (combinations l 5) = 21%nat).
Proof.
  split; intros Hlen;
    repeat (destruct l as [|? l]; [discriminate Hlen|]);
    (destruct l; [reflexivity | discriminate Hlen]).
Qed.

End Combinations.

(** ** The best-of search *)

Section BestOf.
Context (K : CardCodec) (T : LookupTable).

Lemma lookups_in_range_elem (combos : list (list Z)) (combo : list Z) :
  lookups_in_range K T combos = true ->
  combo ∈ combos ->
  exists r, Evaluator._five K T combo = Ok r /\ 1 <= r <= 7462.
Proof.
  unfold lookups_in_range. rewrite forallb_forall.
  intros Hall Hin. apply list_elem_of_In, Hall in Hin.
  destruct (Evaluator._five K T combo) as [r|e]; [|discriminate].
  exists r. split; [reflexivity|]. cbn in Hin. lia.
Qed.

(** The minimum loop, from any starting value: it returns a value that is
    below the start and below every score, and that is the start or one of
    the scores. *)
Lemma keep_minimum_loop (combos : list (list Z)) (start : Z) :
  (forall combo, combo ∈ combos -> exists r, Evaluator._five K T combo = Ok r) ->
  exists m,
    for_each combos (Evaluator.keep_minimum K T) start = Ok m /\
    m <= start /\
    (forall combo, combo ∈ combos ->
                   exists r, Evaluator._five K T combo = Ok r /\ m <= r) /\
    (m = start \/ exists combo, combo ∈ combos /\ Evaluator._five K T combo = Ok m).
Proof.
  revert start. induction combos as [|combo combos IH]; intros start Hscore.
  - exists start. cbn. repeat split; [lia | | auto].
    intros combo Hin. now apply elem_of_nil in Hin.
  - destruct (Hscore combo) as [r Hr]; [left|].
    cbn [for_each].
    replace (Evaluator.keep_minimum K T start combo)
      with (if bool_decide (r < start) then Ok r else Ok start)
      by (unfold Evaluator.keep_minimum; rewrite Hr; reflexivity).
    assert (Hrest : forall c, c ∈ combos -> exists r, Evaluator._five K T c = Ok r)
      by (intros c Hc; apply Hscore; now right).
    case_bool_decide as Hlt; cbn [mbind result_bind].
    + destruct (IH r Hrest) as (m & Hrun & Hle & Hall & Hhit).
      exists m. split; [exact Hrun|]. split; [lia|]. split.
      * intros c Hc. apply elem_of_cons in Hc as [->|Hc]; [|auto].
        exists r. split; [exact Hr | exact Hle].
      * right. destruct Hhit as [->|(c & Hc & Hm)].
        -- exists combo. split; [left | exact Hr].
        -- exists c. split; [now right | exact Hm].
    + destruct (IH start Hrest) as (m & Hrun & Hle & Hall & Hhit).
      exists m. split; [exact Hrun|]. split; [exact Hle|]. split.
      * intros c Hc. apply elem_of_cons in Hc as [->|Hc]; [|auto].
        exists r. split; [exact Hr | lia].
      * destruct Hhit as [->|(c & Hc & Hm)]; [now left|].
        right. exists c. split; [now right | exact Hm].
Qed.

(** With the worst rank as the start and at least one candidate, all of
    them scoring in range, the loop returns the minimum score. *)
Lemma keep_minimum_loop_min (combos : list (list Z)) :
  MAX_HIGH_CARD T = 7462 ->
  combos <> [] ->
  lookups_in_range K T combos = true ->
  exists m,
    for_each combos (Evaluator.keep_minimum K T) (MAX_HIGH_CARD T) = Ok m /\
    1 <= m <= 7462 /\
    (exists combo, combo ∈ combos /\ Evaluator._five K T combo = Ok m) /\
    (forall combo, combo ∈ combos ->
                   exists r, Evaluator._five K T combo = Ok r /\ m <= r).
Proof.
  intros Hmax Hne Hrange.
  destruct (keep_minimum_loop combos (MAX_HIGH_CARD T))
    as (m & Hrun & Hle & Hall & Hhit).
  { intros c Hc. destruct (lookups_in_range_elem combos c Hrange Hc) as (r & Hr & _).
    eauto. }
  exists m. split; [exact Hrun|].
  destruct combos as [|c0 combos]; [contradiction|].
  assert (Hc0 : c0 ∈ c0 :: combos) by left.
  destruct (lookups_in_range_elem _ c0 Hrange Hc0) as (r0 & Hr0 & Hr0range).
  destruct (Hall c0 Hc0) as (r0' & Hr0' & Hm0).
  assert (r0' = r0) by congruence. subst r0'.
  assert (Hhit' : exists combo,
             combo ∈ c0 :: combos /\ Evaluator._five K T combo = Ok m).
  { destruct Hhit as [Hstart|Hhit]; [|exact Hhit].
    exists c0. split; [exact Hc0|]. rewrite Hr0. f_equal. lia. }
  split; [|split; [exact Hhit' | exact Hall]].
  destruct Hhit' as (c & Hc & Hm).
  destruct (lookups_in_range_elem _ c Hrange Hc) as (r & Hr & Hrrange).
  assert (r = m) by congruence. subst r. exact Hrrange.
Qed.

Lemma hand_size_map_lookup (n : Z) :
  Evaluator.hand_size_map K T !! n
  = if decide (n = 5) then Some (Evaluator._five K T)
    else if decide (n = 6) then Some (Evaluator._six K T)
    else if decide (n = 7) then Some (Evaluator._seven K T)
    else None.
Proof.
  unfold Evaluator.hand_size_map.
  repeat case_decide; subst; simplify_map_eq; reflexivity.
Qed.

(** C2. For every hand and board that together hold exactly six or exactly
    seven encoded cards, every table lookup yielding a rank between 1 and
    7462, [evaluate] returns the minimum of [_five] over all the five-card
    subsets of the concatenation. *)
Theorem evaluate_minimum_of_subsets (hand board : list Z) :
  length (hand ++ board) = 6%nat \/ length (hand ++ board) = 7%nat ->
  MAX_HIGH_CARD T = 7462 ->
  lookups_in_range K T (combinations (hand ++ board) 5) = true ->
  exists m,
    Evaluator.evaluate K T hand board = Ok m /\
    minimum_score K T (five_card_subsets (hand ++ board)) m.
Proof.
  intros Hlen Hmax Hrange.
  destruct (keep_minimum_loop_min (combinations (hand ++ board) 5) Hmax)
    as (m & Hrun & _ & (c & Hc & Hm) & Hall);
    [apply combinations_nonempty; lia | exact Hrange |].
  exists m. split.
  - unfold Evaluator.evaluate, dict_get. rewrite hand_size_map_lookup.
    destruct Hlen as [-> | ->]; cbn [decide]; exact Hrun.
  - split.
    + exists c. split; [|exact Hm].
      apply elem_of_combinations in Hc. exact Hc.
    + intros s Hs. apply Hall, elem_of_combinations. exact Hs.
Qed.

(** C7, as amended.  For every hand and board whose concatenation does not
    hold 5, 6 or 7 cards, [evaluate] returns no rank: it raises, before any
    card is scored, the [KeyError] of the dispatch dictionary
    [hand_size_map], which carries the unsupported size. *)
Theorem evaluate_unsupported_size (hand board : list Z) :
  length (hand ++ board) <> 5%nat ->
  length (hand ++ board) <> 6%nat ->
  length (hand ++ board) <> 7%nat ->
  Evaluator.evaluate K T hand board
  = Raise (KeyError (Z.of_nat (length (hand ++ board)))).
Proof.
  intros H5 H6 H7.
  unfold Evaluator.evaluate, dict_get. rewrite hand_size_map_lookup.
  repeat case_decide; try lia. reflexivity.
Qed.

End BestOf.

(** ** The Omaha evaluator *)

Section Omaha.
Context (K : CardCodec) (T : LookupTable).

Lemma for_each_app {S A} (xs ys : list A) (body : S -> A -> result S) (s : S) :
  for_each (xs ++ ys) body s = for_each xs body s ≫= for_each ys body.
Proof.
  revert s. induction xs as [|x xs IH]; intros s; cbn [for_each app].
  - reflexivity.
  - destruct (body s x) as [s'|e]; cbn [mbind result_bind]; [apply IH | reflexivity].
Qed.

Lemma for_each_fmap {S A B} (g : A -> B) (xs : list A)
    (body : S -> B -> result S) (s : S) :
  for_each (g <$> xs) body s = for_each xs (fun s x => body s (g x)) s.
Proof.
  revert s. induction xs as [|x xs IH]; intros s; cbn [for_each fmap list_fmap].
  - reflexivity.
  - destruct (body s (g x)) as [s'|e]; cbn [mbind result_bind]; [apply IH | reflexivity].
Qed.

(** The two nested loops are one loop over [omaha_candidates]. *)
Lemma plo_evaluate_flat (hand board : list Z) :
  PLOEvaluator.evaluate K T hand board
  = for_each (omaha_candidates hand board) (Evaluator.keep_minimum K T)
      (MAX_HIGH_CARD T).
Proof.
  unfold PLOEvaluator.evaluate, omaha_candidates.
  generalize (MAX_HIGH_CARD T) as start.
  induction (combinations hand 2) as [|hand_combo rest IH]; intros start.
  - reflexivity.
  - cbn [for_each mbind list_bind]. rewrite for_each_app, for_each_fmap.
    destruct (for_each (combinations board 3) _ start) as [s'|e];
      cbn [mbind result_bind]; [apply IH | reflexivity].
Qed.

Lemma elem_of_omaha_candidates (hand board s : list Z) :
  s ∈ omaha_candidates hand board <-> omaha_hands hand board s.
Proof.
  unfold omaha_candidates, omaha_hands. rewrite list_elem_of_bind. split.
  - intros (hole & Hs & Hhole).
    apply list_elem_of_fmap in Hs as (shared & -> & Hshared).
    apply elem_of_combinations in Hhole as [? ?].
    apply elem_of_combinations in Hshared as [? ?].
    exists hole, shared. auto.
  - intros (hole & shared & Hh & Hhl & Hb & Hbl & ->).
    exists hole. split.
    + apply list_elem_of_fmap. exists shared. split; [reflexivity|].
      apply elem_of_combinations. auto.
    + apply elem_of_combinations. auto.
Qed.

Lemma omaha_candidates_count (hand board : list Z) :
  length hand = 4%nat -> length board = 5%nat ->
  length (omaha_candidates hand board) = 60%nat.
Proof.
  intros Hh Hb.
  destruct hand as [|h0 [|h1 [|h2 [|h3 [|h4 hand]]]]]; try discriminate.
  destruct board as [|b0 [|b1 [|b2 [|b3 [|b4 [|b5 board]]]]]]; try discriminate.
  reflexivity.
Qed.

(** C3. For every Omaha hand of exactly four hole cards and board of five
    cards, every table lookup yielding a rank between 1 and 7462, the Omaha
    [evaluate] returns the minimum of [_five] over all the pairs of hole
    cards joined to all the triples of board cards.  The hands it scores
    are those sixty alone, each made of three board cards and two hole
    cards: none uses three or more hole cards. *)
Theorem plo_evaluate_minimum (hand board : list Z) :
  length hand = 4%nat ->
  length board = 5%nat ->
  MAX_HIGH_CARD T = 7462 ->
  lookups_in_range K T (omaha_candidates hand board) = true ->
  PLOEvaluator.evaluate K T hand board
  = for_each (omaha_candidates hand board) (Evaluator.keep_minimum K T)
      (MAX_HIGH_CARD T)
  /\ length (omaha_candidates hand board) = 60%nat
  /\ (forall s, s ∈ omaha_candidates hand board -> omaha_hands hand board s)
  /\ exists m,
       PLOEvaluator.evaluate K T hand board = Ok m /\
       minimum_score K T (omaha_hands hand board) m.
Proof.
  intros Hhand Hboard Hmax Hrange.
  pose proof (omaha_candidates_count hand board Hhand Hboard) as Hcount.
  split; [apply plo_evaluate_flat|]. split; [exact Hcount|]. split.
  { intros s Hs. now apply elem_of_omaha_candidates. }
  destruct (keep_minimum_loop_min K T (omaha_candidates hand board) Hmax)
    as (m & Hrun & _ & (c & Hc & Hm) & Hall); [|exact Hrange|].
  { intros Hnil. rewrite Hnil in Hcount. discriminate. }
  exists m. split; [rewrite plo_evaluate_flat; exact Hrun|]. split.
  - exists c. split; [now apply elem_of_omaha_candidates | exact Hm].
  - intros s Hs. apply Hall. now apply elem_of_omaha_candidates.
Qed.

End Omaha.

(** ** Rank classes *)

Section RankClass.
Context (T : LookupTable).

Lemma constants_ok_inv :
  constants_ok T = true ->
  (MAX_ROYAL_FLUSH T <= MAX_STRAIGHT_FLUSH T
   /\ MAX_STRAIGHT_FLUSH T <= MAX_FOUR_OF_A_KIND T
   /\ MAX_FOUR_OF_A_KIND T <= MAX_FULL_HOUSE T
   /\ MAX_FULL_HOUSE T <= MAX_FLUSH T
   /\ MAX_FLUSH T <= MAX_STRAIGHT T
   /\ MAX_STRAIGHT T <= MAX_THREE_OF_A_KIND T
   /\ MAX_THREE_OF_A_KIND T <= MAX_TWO_PAIR T
   /\ MAX_TWO_PAIR T <= MAX_PAIR T
   /\ MAX_PAIR T <= MAX_HIGH_CARD T
   /\ MAX_HIGH_CARD T = 7462)
  /\ Forall (fun k => is_Some (MAX_TO_RANK_CLASS T !! k)) (cut_points T).
Proof.
  unfold constants_ok. rewrite !andb_true_iff, forallb_forall.
  intros [[Hasc Hlast] Hcls]. split.
  - cbn [ascending cut_points] in Hasc. rewrite !andb_true_iff in Hasc. lia.
  - apply Forall_forall. intros k Hk.
    apply list_elem_of_In, Hcls, bool_decide_eq_true in Hk. exact Hk.
Qed.

Lemma get_rank_class_chosen (hr : Z) :
  Evaluator.get_rank_class T hr
  = match chosen_cut_point T hr with
    | Some k => dict_get (MAX_TO_RANK_CLASS T) k
    | None => Raise (Exception "Inavlid hand rank, cannot return rank class")
    end.
Proof.
  unfold Evaluator.get_rank_class, chosen_cut_point.
  repeat match goal with
         | |- context [if ?b then _ else _] => destruct b; [reflexivity|]
         end.
  reflexivity.
Qed.

(** From rank 0 up, the chosen cut point is the first one at or above the
    rank. *)
Lemma chosen_cut_point_spec (hr : Z) :
  constants_ok T = true ->
  0 <= hr ->
  match chosen_cut_point T hr with
  | Some k => k ∈ cut_points T /\ hr <= k <= 7462
              /\ forall k', k' ∈ cut_points T -> hr <= k' -> k <= k'
  | None => 7462 < hr
  end.
Proof.
  intros Hok Hhr. destruct (constants_ok_inv Hok) as [Hasc _].
  unfold chosen_cut_point, cut_points.
  replace (hr >=? 0) with true by lia. cbn [andb].
  repeat match goal with
         | |- context [?a <=? ?b] => destruct (Z.leb_spec a b)
         end;
    try lia;
    (split; [repeat constructor|]); (split; [lia|]);
    intros k' Hk' Hle; rewrite !elem_of_cons, elem_of_nil in Hk'; lia.
Qed.

Lemma ascending_cons (x : Z) (l : list Z) :
  ascending (x :: l) = true ->
  Forall (fun y => x <= y) l /\ ascending l = true.
Proof.
  revert x. induction l as [|y l IH]; intros x Hasc.
  - split; [constructor | reflexivity].
  - cbn [ascending] in Hasc. apply andb_true_iff in Hasc as [Hxy Hrest].
    destruct (IH y Hrest) as [Hall _]. split; [|exact Hrest].
    constructor; [lia|].
    eapply Forall_impl; [exact Hall|]. cbn. intros z Hz. lia.
Qed.

(** Along ascending keys with ascending values, the value under a smaller
    key is the smaller one, also when keys repeat. *)
Lemma ascending_lookup_le (M : gmap Z Z) (ks cs : list Z) :
  Forall2 (fun k c => M !! k = Some c) ks cs ->
  ascending ks = true ->
  ascending cs = true ->
  forall k1 k2 c1 c2,
    k1 ∈ ks -> k2 ∈ ks -> k1 <= k2 ->
    M !! k1 = Some c1 -> M !! k2 = Some c2 -> c1 <= c2.
Proof.
  induction 1 as [|k c ks cs Hkc Hrest IH]; intros Hks Hcs k1 k2 c1 c2 Hk1 Hk2 Hle H1 H2.
  - now apply elem_of_nil in Hk1.
  - apply ascending_cons in Hks as [Hkmin Hks].
    apply ascending_cons in Hcs as [Hcmin Hcs].
    assert (Htail : forall k' c', k' ∈ ks -> M !! k' = Some c' -> c <= c').
    { intros k' c' Hk' Hc'.
      apply list_elem_of_lookup in Hk' as [i Hi].
      destruct (Forall2_lookup_l _ _ _ _ _ Hrest Hi) as (c'' & Hci & Hc'').
      assert (c'' = c') by congruence. subst c''.
      rewrite Forall_forall in Hcmin. apply Hcmin.
      apply list_elem_of_lookup. eauto. }
    apply elem_of_cons in Hk1 as [->|Hk1]; apply elem_of_cons in Hk2 as [->|Hk2].
    + assert (c1 = c2) by congruence. lia.
    + assert (c1 = c) by congruence. subst c1. exact (Htail k2 c2 Hk2 H2).
    + rewrite Forall_forall in Hkmin. pose proof (Hkmin k1 Hk1) as Hge.
      assert (k1 = k) by lia. subst k1.
      assert (c1 = c2) by congruence. lia.
    + exact (IH Hks Hcs k1 k2 c1 c2 Hk1 Hk2 Hle H1 H2).
Qed.

(** C4, as amended.  For every rank from 0 up, [get_rank_class] raises its
    invalid-rank exception exactly when the rank is above 7462, and for
    every rank from 0 to 7462 it returns a rank class. *)
Theorem get_rank_class_invalid_above (hr : Z) :
  constants_ok T = true ->
  0 <= hr ->
  (Evaluator.get_rank_class T hr
   = Raise (Exception "Inavlid hand rank, cannot return rank class")
   <-> 7462 < hr)
  /\ (hr <= 7462 -> exists c, Evaluator.get_rank_class T hr = Ok c).
Proof.
  intros Hok Hhr. rewrite get_rank_class_chosen.
  pose proof (chosen_cut_point_spec hr Hok Hhr) as Hspec.
  destruct (constants_ok_inv Hok) as [_ Hcls].
  destruct (chosen_cut_point T hr) as [k|].
  - destruct Hspec as (Hk & Hrange & _).
    rewrite Forall_forall in Hcls. destruct (Hcls k Hk) as [c Hc].
    unfold dict_get. rewrite Hc. split.
    + split; [discriminate | lia].
    + intros _. exists c. reflexivity.
  - split; [split; [intros _; exact Hspec | reflexivity] | lia].
Qed.

(** C8. [get_rank_class] is a function of the rank alone, and for all ranks
    [r1 <= r2] between 1 and 7462 the class of [r1] is at most the class of
    [r2], the cut points ascending and mapping to ascending classes. *)
Theorem get_rank_class_monotone (r1 r2 : Z) :
  constants_ok T = true ->
  classes_ascending T = true ->
  1 <= r1 -> r1 <= r2 -> r2 <= 7462 ->
  exists c1 c2,
    Evaluator.get_rank_class T r1 = Ok c1 /\
    Evaluator.get_rank_class T r2 = Ok c2 /\
    c1 <= c2 /\
    (r1 = r2 -> c1 = c2).
Proof.
  intros Hok Hcls H1 H12 H2.
  pose proof (chosen_cut_point_spec r1 Hok ltac:(lia)) as Hs1.
  pose proof (chosen_cut_point_spec r2 Hok ltac:(lia)) as Hs2.
  rewrite !get_rank_class_chosen.
  destruct (chosen_cut_point T r1) as [k1|] eqn:Hc1; [|lia].
  destruct (chosen_cut_point T r2) as [k2|] eqn:Hc2; [|lia].
  destruct Hs1 as (Hk1 & Hr1 & Hmin1). destruct Hs2 as (Hk2 & Hr2 & _).
  unfold classes_ascending in Hcls.
  destruct (mapM _ (cut_points T)) as [classes|] eqn:Hmap; [|discriminate].
  apply mapM_Some in Hmap.
  assert (Hasc : ascending (cut_points T) = true).
  { unfold constants_ok in Hok. rewrite !andb_true_iff in Hok. tauto. }
  destruct (list_elem_of_lookup_1 _ _ Hk1) as [i1 Hi1].
  destruct (list_elem_of_lookup_1 _ _ Hk2) as [i2 Hi2].
  destruct (Forall2_lookup_l _ _ _ _ _ Hmap Hi1) as (c1 & _ & Hlk1).
  destruct (Forall2_lookup_l _ _ _ _ _ Hmap Hi2) as (c2 & _ & Hlk2).
  exists c1, c2. unfold dict_get. rewrite Hlk1, Hlk2.
  split; [reflexivity|]. split; [reflexivity|]. split.
  - eapply (ascending_lookup_le _ _ _ Hmap Hasc Hcls k1 k2); eauto.
    apply Hmin1; [exact Hk2 | lia].
  - intros ->. congruence.
Qed.

End RankClass.

(** ** The rank percentage *)

Section Percentage.
Context (T : LookupTable).

Lemma rank_percentage_unfold (hand_rank : Z) :
  MAX_HIGH_CARD T = 7462 ->
  Evaluator.get_five_card_rank_percentage T hand_rank
  = x ← Float.of_int hand_rank;
    Ok (SFdiv Float.prec Float.emax x worst_rank_float).
Proof.
  intros Hmax. unfold Evaluator.get_five_card_rank_percentage. rewrite Hmax.
  destruct (Float.of_int hand_rank) as [x|e]; reflexivity.
Qed.

(** Checked on each of the 7462 valid ranks: the scaled rank is a float
    above 0.0 and at most 1.0. *)
Lemma valid_ranks_scaled :
  forallb
    (fun r =>
       positive_fraction
         (x ← Float.of_int r;
          Ok (SFdiv Float.prec Float.emax x worst_rank_float)))
    valid_ranks
  = true.
Proof. vm_compute. reflexivity. Qed.

Lemma elem_of_valid_ranks (r : Z) : 1 <= r <= 7462 -> r ∈ valid_ranks.
Proof.
  intros Hr. unfold valid_ranks. apply list_elem_of_fmap.
  exists (Z.to_nat r). split; [lia|].
  apply list_elem_of_In, in_seq. lia.
Qed.

Lemma rank_percentage_valid (hand_rank : Z) :
  MAX_HIGH_CARD T = 7462 ->
  1 <= hand_rank <= 7462 ->
  exists f,
    Evaluator.get_five_card_rank_percentage T hand_rank = Ok f /\
    SFltb Float.zero f = true /\ SFleb f Float.one = true.
Proof.
  intros Hmax Hr. rewrite (rank_percentage_unfold hand_rank Hmax).
  pose proof valid_ranks_scaled as Hall. rewrite forallb_forall in Hall.
  specialize (Hall hand_rank).
  destruct (x ← Float.of_int hand_rank;
            Ok (SFdiv Float.prec Float.emax x worst_rank_float)) as [f|e].
  - exists f. split; [reflexivity|]. apply andb_true_iff, Hall.
    apply list_elem_of_In, elem_of_valid_ranks, Hr.
  - exfalso. enough (false = true) by discriminate. apply Hall.
    apply list_elem_of_In, elem_of_valid_ranks, Hr.
Qed.

(** C5, as amended.  [get_five_card_rank_percentage] divides the float of
    the rank by 7462.0.  At rank 7462 this is 1.0; at rank 1 it is the
    float nearest to 1/7462 (4944182276523600 * 2^-65, about 0.000134) and
    not 0.0; on every rank from 1 to 7462 it is above 0.0 and at most 1.0,
    and 0.0 is the value at rank 0. *)
Theorem rank_percentage_scaling (hand_rank : Z) :
  MAX_HIGH_CARD T = 7462 ->
  Evaluator.get_five_card_rank_percentage T hand_rank
  = (x ← Float.of_int hand_rank;
     Ok (SFdiv Float.prec Float.emax x worst_rank_float))
  /\ Evaluator.get_five_card_rank_percentage T 7462 = Ok Float.one
  /\ Evaluator.get_five_card_rank_percentage T 1
     = Ok (S754_finite false 4944182276523600 (-65))
  /\ Evaluator.get_five_card_rank_percentage T 0 = Ok Float.zero
  /\ (1 <= hand_rank <= 7462 ->
      exists f,
        Evaluator.get_five_card_rank_percentage T hand_rank = Ok f /\
        SFltb Float.zero f = true /\ SFleb f Float.one = true).
Proof.
  intros Hmax. split; [apply rank_percentage_unfold, Hmax|].
  rewrite !(rank_percentage_unfold _ Hmax).
  split; [vm_compute; reflexivity|].
  split; [vm_compute; reflexivity|].
  split; [vm_compute; reflexivity|].
  intros Hr. rewrite <- (rank_percentage_unfold _ Hmax).
  apply rank_percentage_valid; assumption.
Qed.

End Percentage.

(** ** The street reporter *)

Section Leaders.
Context {P : Type}.
Implicit Types (ranks : list (P * Z)) (leading : list P).

Lemma foldr_min_le (start : Z) (l : list Z) : foldr Z.min start l <= start.
Proof. induction l as [|x l IH]; cbn [foldr]; lia. Qed.

Lemma foldr_min_start (a b : Z) (l : list Z) :
  foldr Z.min (Z.min a b) l = Z.min a (foldr Z.min b l).
Proof. induction l as [|x l IH]; cbn [foldr]; [reflexivity | lia]. Qed.

Lemma foldr_min_attained (start : Z) (l : list Z) :
  l <> [] -> Forall (fun x => x < start) l -> foldr Z.min start l ∈ l.
Proof.
  induction l as [|x l IH]; intros Hne Hall; [contradiction|].
  apply Forall_cons in Hall as [Hx Hall]. cbn [foldr].
  destruct l as [|y l].
  - cbn [foldr]. replace (Z.min x start) with x by lia. left.
  - destruct (Z.min_spec x (foldr Z.min start (y :: l))) as [[_ ->]|[_ ->]].
    + left.
    + right. apply IH; [discriminate | exact Hall].
Qed.

(** The loop of [lead], from any state: the best rank becomes the minimum
    of the start and the ranks, and the leaders are the players at that
    minimum, in order, after the leaders at the start when the start is not
    improved on. *)
Lemma fold_lead ranks (best : Z) leading :
  fold_left lead ranks (best, leading)
  = let m := foldr Z.min best ranks.*2 in
    (m,
     (if bool_decide (m = best) then leading else [])
     ++ (filter (fun pr : P * Z => pr.2 = m) ranks).*1).
Proof.
  revert best leading.
  induction ranks as [|[player rank] ranks IH]; intros best leading.
  - cbn. rewrite bool_decide_eq_true_2 by reflexivity.
    now rewrite app_nil_r.
  - cbn [fold_left lead fmap list_fmap foldr snd]. cbv zeta.
    pose proof (foldr_min_le best ranks.*2) as Hle.
    rewrite filter_cons. cbn [snd].
    case_bool_decide as Hlt; [|case_bool_decide as Heq].
    + rewrite IH. cbv zeta.
      replace (foldr Z.min rank ranks.*2)
        with (Z.min rank (foldr Z.min best ranks.*2))
        by (rewrite <- foldr_min_start; f_equal; lia).
      f_equal.
      rewrite (bool_decide_eq_false_2 (_ = best)) by lia.
      repeat case_bool_decide; case_decide; try lia; reflexivity.
    + subst rank. rewrite IH. cbv zeta.
      replace (Z.min best (foldr Z.min best ranks.*2))
        with (foldr Z.min best ranks.*2) by lia.
      f_equal.
      case_bool_decide; case_decide; try lia; cbn [fmap list_fmap fst app];
        [rewrite <- app_assoc|]; reflexivity.
    + rewrite IH. cbv zeta.
      replace (Z.min rank (foldr Z.min best ranks.*2))
        with (foldr Z.min best ranks.*2) by lia.
      f_equal. case_decide; [lia | reflexivity].
Qed.

(** The leaders are the players whose rank is the minimum, in order. *)
Lemma leaders_minimum ranks :
  leaders ranks
  = (filter (fun pr : P * Z => pr.2 = foldr Z.min 7463 ranks.*2) ranks).*1.
Proof.
  unfold leaders. rewrite fold_lead. cbv zeta. cbn [snd].
  case_bool_decide; reflexivity.
Qed.

Lemma leaders_nonempty ranks :
  ranks <> [] ->
  Forall (fun pr : P * Z => pr.2 <= 7462) ranks ->
  leaders ranks <> [].
Proof.
  intros Hne Hall. rewrite leaders_minimum.
  assert (Hin : foldr Z.min 7463 ranks.*2 ∈ ranks.*2).
  { apply foldr_min_attained.
    - destruct ranks; [contradiction | discriminate].
    - apply Forall_fmap. eapply Forall_impl; [exact Hall|].
      cbn. intros pr Hpr. lia. }
  apply list_elem_of_fmap in Hin as ([player rank] & Hm & Hin).
  cbn [snd] in Hm.
  assert (Hlead : player ∈ (filter (fun pr : P * Z =>
                     pr.2 = foldr Z.min 7463 ranks.*2) ranks).*1).
  { apply list_elem_of_fmap. exists (player, rank). split; [reflexivity|].
    apply list_elem_of_filter. split; [cbn [snd]; congruence | exact Hin]. }
  intros Hnil. rewrite Hnil in Hlead. now apply elem_of_nil in Hlead.
Qed.

End Leaders.

Section HandSummary.
Context (K : CardCodec) (T : LookupTable) {P : Type}.
Implicit Types (hands : list (P * list Z)) (ranks : list (P * Z)).

Lemma rank_labelled (hr : Z) :
  constants_ok T = true ->
  labels_ok T = true ->
  0 <= hr <= 7462 ->
  exists c label,
    Evaluator.get_rank_class T hr = Ok c /\
    Evaluator.class_to_string T c = Ok label.
Proof.
  intros Hok Hlabels Hhr. rewrite get_rank_class_chosen.
  pose proof (chosen_cut_point_spec T hr Hok ltac:(lia)) as Hspec.
  destruct (chosen_cut_point T hr) as [k|]; [|lia].
  destruct Hspec as (Hk & _ & _).
  unfold labels_ok in Hlabels. rewrite forallb_forall in Hlabels.
  apply list_elem_of_In, Hlabels in Hk.
  destruct (MAX_TO_RANK_CLASS T !! k) as [c|] eqn:Hc; [|discriminate].
  apply bool_decide_eq_true in Hk as [label Hlabel].
  exists c, label. unfold dict_get, Evaluator.class_to_string, dict_get.
  rewrite Hc, Hlabel. split; reflexivity.
Qed.

Section WithEvaluate.
Context (self_evaluate : list Z -> list Z -> result Z).

(** On a hand that evaluates to a valid rank, one pass of the inner loop is
    one step of [lead]. *)
Lemma detect_winner_lead (board : list Z) (i : nat) (st : Z * list P)
    (player : P) (hand : list Z) (rank : Z) :
  constants_ok T = true ->
  labels_ok T = true ->
  self_evaluate hand (take (i + 3) board) = Ok rank ->
  1 <= rank <= 7462 ->
  Evaluator.detect_winner T self_evaluate board i st (player, hand)
  = Ok (lead st (player, rank)).
Proof.
  intros Hok Hlabels Hrank Hrange. destruct st as [best leading].
  destruct (rank_labelled rank Hok Hlabels ltac:(lia)) as (c & label & Hc & Hlabel).
  destruct (constants_ok_inv T Hok) as [Hcuts _].
  destruct (rank_percentage_valid T rank ltac:(lia) Hrange) as (f & Hf & _).
  unfold Evaluator.detect_winner, lead.
  rewrite Hrank. cbn [mbind result_bind].
  rewrite Hc. cbn [mbind result_bind].
  rewrite Hlabel. cbn [mbind result_bind].
  rewrite Hf. cbn [mbind result_bind].
  repeat case_bool_decide; try lia; subst; reflexivity.
Qed.

(** Whenever one pass of the inner loop returns, the hand was given a rank
    and the pass was one step of [lead]. *)
Lemma detect_winner_returns (board : list Z) (i : nat) (st st' : Z * list P)
    (player : P) (hand : list Z) :
  Evaluator.detect_winner T self_evaluate board i st (player, hand) = Ok st' ->
  exists rank,
    self_evaluate hand (take (i + 3) board) = Ok rank /\
    st' = lead st (player, rank).
Proof.
  destruct st as [best leading]. unfold Evaluator.detect_winner, lead.
  destruct (self_evaluate hand (take (i + 3) board)) as [rank|e];
    cbn [mbind result_bind]; [|discriminate].
  destruct (Evaluator.get_rank_class T rank) as [c|e];
    cbn [mbind result_bind]; [|discriminate].
  destruct (Evaluator.class_to_string T c) as [label|e];
    cbn [mbind result_bind]; [|discriminate].
  destruct (Evaluator.get_five_card_rank_percentage T rank) as [f|e];
    cbn [mbind result_bind]; [|discriminate].
  intros Hst. exists rank. split; [reflexivity|].
  repeat case_bool_decide; try lia; subst; congruence.
Qed.

Lemma street_loop (board : list Z) (i : nat) hands ranks (st : Z * list P) :
  constants_ok T = true ->
  labels_ok T = true ->
  ranks_on self_evaluate (take (i + 3) board) hands ranks ->
  ranks_valid ranks ->
  for_each hands (Evaluator.detect_winner T self_evaluate board i) st
  = Ok (fold_left lead ranks st).
Proof.
  intros Hok Hlabels Hranks. revert st.
  induction Hranks as [|[player hand] [player' rank] hands ranks Hhead _ IH];
    intros st Hvalid; cbn [for_each fold_left].
  - reflexivity.
  - cbn [fst snd] in Hhead. destruct Hhead as (-> & Hrank).
    apply Forall_cons in Hvalid as [Hrange Hvalid]. cbn [snd] in Hrange.
    rewrite (detect_winner_lead board i st player hand rank Hok Hlabels Hrank Hrange).
    cbn [mbind result_bind]. apply IH, Hvalid.
Qed.

Lemma street_loop_returns (board : list Z) (i : nat) hands (st st' : Z * list P) :
  for_each hands (Evaluator.detect_winner T self_evaluate board i) st = Ok st' ->
  exists ranks,
    ranks_on self_evaluate (take (i + 3) board) hands ranks /\
    st' = fold_left lead ranks st.
Proof.
  unfold ranks_on.
  revert st. induction hands as [|[player hand] hands IH]; intros st Hloop;
    cbn [for_each] in Hloop.
  - exists []. split; [constructor | cbn [fold_left]; congruence].
  - destruct (Evaluator.detect_winner T self_evaluate board i st (player, hand))
      as [st1|e] eqn:Hstep; cbn [mbind result_bind] in Hloop; [|discriminate].
    apply detect_winner_returns in Hstep as (rank & Hrank & ->).
    destruct (IH _ Hloop) as (ranks & Hranks & ->).
    exists ((player, rank) :: ranks). split; [|reflexivity].
    constructor; [|exact Hranks]. cbn [fst snd]. auto.
Qed.

Lemma street_leaders (board : list Z) (i : nat) hands ranks
    (winners : option (list P)) :
  constants_ok T = true ->
  labels_ok T = true ->
  ranks_on self_evaluate (take (i + 3) board) hands ranks ->
  ranks_valid ranks ->
  Evaluator.street T self_evaluate board hands winners i
  = Ok (Some (leaders ranks)).
Proof.
  intros Hok Hlabels Hranks Hvalid. unfold Evaluator.street, leaders.
  rewrite (street_loop board i hands ranks _ Hok Hlabels Hranks Hvalid).
  reflexivity.
Qed.

Lemma street_returns (board : list Z) (i : nat) hands
    (winners winners' : option (list P)) :
  Evaluator.street T self_evaluate board hands winners i = Ok winners' ->
  exists ranks,
    ranks_on self_evaluate (take (i + 3) board) hands ranks /\
    winners' = Some (leaders ranks).
Proof.
  unfold Evaluator.street, leaders. intros Hstreet.
  destruct (for_each hands _ (7463, [])) as [st|e] eqn:Hloop;
    cbn [mbind result_bind] in Hstreet; [|discriminate].
  apply street_loop_returns in Hloop as (ranks & Hranks & ->).
  exists ranks. split; [exact Hranks | congruence].
Qed.

Lemma ranks_on_exists (cards : list Z) hands :
  forallb
    (fun item : P * list Z => rank_in_range (self_evaluate (snd item) cards))
    hands = true ->
  exists ranks, ranks_on self_evaluate cards hands ranks /\ ranks_valid ranks.
Proof.
  unfold ranks_on, ranks_valid.
  induction hands as [|[player hand] hands IH]; intros Hall.
  - exists []. split; constructor.
  - cbn [forallb snd] in Hall. apply andb_true_iff in Hall as [Hhead Hrest].
    destruct (IH Hrest) as (ranks & Hranks & Hvalid).
    destruct (self_evaluate hand cards) as [rank|e] eqn:Hrank; [|discriminate].
    cbn [rank_in_range] in Hhead.
    exists ((player, rank) :: ranks). split.
    + constructor; [|exact Hranks]. cbn [fst snd]. auto.
    + constructor; [cbn [snd]; lia | exact Hvalid].
Qed.

(** With the streets in range, [hand_summary] returns the leaders of the
    river, the last street. *)
Lemma hand_summary_of_river (board : list Z) hands :
  length board = 5%nat ->
  constants_ok T = true ->
  labels_ok T = true ->
  streets_in_range self_evaluate board hands = true ->
  exists ranks,
    ranks_on self_evaluate board hands ranks /\
    ranks_valid ranks /\
    Evaluator.hand_summary_of T self_evaluate board hands = Ok (leaders ranks).
Proof.
  intros Hlen Hok Hlabels Hstreets.
  unfold streets_in_range in Hstreets. cbn [forallb] in Hstreets.
  rewrite !andb_true_iff in Hstreets.
  destruct Hstreets as (Hflop & Hturn & Hriver & _).
  destruct (ranks_on_exists _ _ Hflop) as (flop & Hflop' & Hflopv).
  destruct (ranks_on_exists _ _ Hturn) as (turn & Hturn' & Hturnv).
  destruct (ranks_on_exists _ _ Hriver) as (river & Hriver' & Hriverv).
  exists river. split; [|split; [exact Hriverv|]].
  - rewrite firstn_all2 in Hriver' by lia. exact Hriver'.
  - unfold Evaluator.hand_summary_of, Evaluator.BOARD_LENGTH.
    rewrite bool_decide_eq_true_2 by exact Hlen.
    cbn [Evaluator.stages length seq for_each].
    rewrite (street_leaders board 0 hands flop None Hok Hlabels Hflop' Hflopv).
    cbn [mbind result_bind].
    rewrite (street_leaders board 1 hands turn _ Hok Hlabels Hturn' Hturnv).
    cbn [mbind result_bind].
    rewrite (street_leaders board 2 hands river _ Hok Hlabels Hriver' Hriverv).
    reflexivity.
Qed.

(** Whenever [hand_summary] returns, it returns the leaders of the river:
    the flop's and the turn's leaders are not in the result. *)
Lemma hand_summary_of_returns (board : list Z) hands (w : list P) :
  Evaluator.hand_summary_of T self_evaluate board hands = Ok w ->
  length board = 5%nat /\
  exists ranks, ranks_on self_evaluate board hands ranks /\ w = leaders ranks.
Proof.
  unfold Evaluator.hand_summary_of, Evaluator.BOARD_LENGTH.
  case_bool_decide as Hlen; [|discriminate].
  cbn [Evaluator.stages length seq for_each]. intros Hsummary.
  split; [exact Hlen|].
  destruct (Evaluator.street T self_evaluate board hands None 0)
    as [flop|e]; cbn [mbind result_bind] in Hsummary; [|discriminate].
  destruct (Evaluator.street T self_evaluate board hands flop 1)
    as [turn|e]; cbn [mbind result_bind] in Hsummary; [|discriminate].
  destruct (Evaluator.street T self_evaluate board hands turn 2)
    as [river|e] eqn:Hriver; cbn [mbind result_bind] in Hsummary;
    [|discriminate].
  apply street_returns in Hriver as (ranks & Hranks & ->).
  rewrite firstn_all2 in Hranks by lia.
  exists ranks. split; [exact Hranks | congruence].
Qed.

End WithEvaluate.

(** C6. For every board of exactly five cards and every non-empty mapping
    of players to hands, [hand_summary] returns exactly the leader set of
    the river, the last street.  Whenever it returns, its result is the
    leader set of the players' ranks on the full board: going through them,
    a rank that strictly improves on the best so far resets the leaders to
    that player and a rank that ties it appends the player; these are the
    players whose river rank is the minimum, in the order of the mapping.
    And it does return, with at least one leader, when each hand evaluates
    to a rank between 1 and 7462 on the flop, the turn and the river. *)
Theorem hand_summary_river_leaders (board : list Z) hands :
  length board = 5%nat ->
  hands <> [] ->
  (forall w,
     Evaluator.hand_summary K T board hands = Ok w ->
     exists ranks,
       ranks_on (Evaluator.evaluate K T) board hands ranks /\
       w = leaders ranks /\
       w = (filter (fun pr : P * Z => pr.2 = foldr Z.min 7463 ranks.*2)
              ranks).*1)
  /\ (constants_ok T = true ->
      labels_ok T = true ->
      streets_in_range (Evaluator.evaluate K T) board hands = true ->
      exists ranks,
        ranks_on (Evaluator.evaluate K T) board hands ranks /\
        ranks_valid ranks /\
        Evaluator.hand_summary K T board hands = Ok (leaders ranks) /\
        leaders ranks <> []).
Proof.
  intros Hlen Hne. split.
  - intros w Hsummary.
    apply hand_summary_of_returns in Hsummary as (_ & ranks & Hranks & ->).
    exists ranks. split; [exact Hranks|]. split; [reflexivity|].
    apply leaders_minimum.
  - intros Hok Hlabels Hstreets.
    destruct (hand_summary_of_river (Evaluator.evaluate K T) board hands
                Hlen Hok Hlabels Hstreets) as (ranks & Hranks & Hvalid & Hsummary).
    exists ranks. split; [exact Hranks|]. split; [exact Hvalid|].
    split; [exact Hsummary|].
    apply leaders_nonempty.
    + intros ->. apply Forall2_nil_inv_r in Hranks. contradiction.
    + eapply Forall_impl; [exact Hvalid|]. cbn. intros pr Hpr. lia.
Qed.

End HandSummary.

(** ** No assertion fails past the board check *)

Section NoAssertion.
Context (K : CardCodec) (T : LookupTable).

Lemma for_each_no_assertion {S A} (xs : list A) (body : S -> A -> result S)
    (s : S) :
  (forall s x, ~ raises_assertion (body s x)) ->
  ~ raises_assertion (for_each xs body s).
Proof.
  intros Hbody. revert s.
  induction xs as [|x xs IH]; intros s [msg Hmsg]; cbn [for_each] in Hmsg.
  - discriminate.
  - destruct (body s x) as [s'|e] eqn:Hstep; cbn [mbind result_bind] in Hmsg.
    + apply (IH s'). exists msg. exact Hmsg.
    + apply (Hbody s x). exists msg. congruence.
Qed.

Lemma dict_get_no_assertion {V} (d : gmap Z V) (k : Z) :
  ~ raises_assertion (dict_get d k).
Proof. intros [msg Hmsg]. unfold dict_get in Hmsg. case_match; discriminate. Qed.

Lemma five_no_assertion (cards : list Z) :
  ~ raises_assertion (Evaluator._five K T cards).
Proof.
  intros [msg Hmsg]. revert Hmsg.
  unfold Evaluator._five, getitem, mbind, result_bind.
  repeat case_match; try discriminate; intros Hmsg;
    first [ congruence
          | eapply dict_get_no_assertion; exists msg; exact Hmsg ].
Qed.

Lemma keep_minimum_no_assertion (minimum : Z) (combo : list Z) :
  ~ raises_assertion (Evaluator.keep_minimum K T minimum combo).
Proof.
  intros [msg Hmsg]. unfold Evaluator.keep_minimum in Hmsg.
  destruct (Evaluator._five K T combo) as [score|e] eqn:Hfive;
    cbn [mbind result_bind] in Hmsg.
  - case_bool_decide; discriminate.
  - apply (five_no_assertion combo). exists msg. congruence.
Qed.

Lemma evaluate_no_assertion (hand board : list Z) :
  ~ raises_assertion (Evaluator.evaluate K T hand board).
Proof.
  unfold Evaluator.evaluate, dict_get. rewrite hand_size_map_lookup.
  repeat case_decide; cbn [mbind result_bind].
  - apply five_no_assertion.
  - apply for_each_no_assertion, keep_minimum_no_assertion.
  - apply for_each_no_assertion, keep_minimum_no_assertion.
  - intros [msg Hmsg]. discriminate.
Qed.

Lemma get_rank_class_no_assertion (hr : Z) :
  ~ raises_assertion (Evaluator.get_rank_class T hr).
Proof.
  rewrite get_rank_class_chosen. destruct (chosen_cut_point T hr).
  - apply dict_get_no_assertion.
  - intros [msg Hmsg]. discriminate.
Qed.

Lemma rank_percentage_no_assertion (hand_rank : Z) :
  ~ raises_assertion (Evaluator.get_five_card_rank_percentage T hand_rank).
Proof.
  assert (Hfloat : forall z, ~ raises_assertion (Float.of_int z)).
  { intros z [msg Hmsg]. unfold Float.of_int in Hmsg.
    destruct (binary_normalize Float.prec Float.emax z 0 false); discriminate. }
  intros [msg Hmsg]. unfold Evaluator.get_five_card_rank_percentage in Hmsg.
  destruct (Float.of_int hand_rank) as [x|e] eqn:Hx;
    cbn [mbind result_bind] in Hmsg;
    [|apply (Hfloat hand_rank); exists msg; congruence].
  destruct (Float.of_int (MAX_HIGH_CARD T)) as [y|e] eqn:Hy;
    cbn [mbind result_bind] in Hmsg;
    [|apply (Hfloat (MAX_HIGH_CARD T)); exists msg; congruence].
  unfold Float.truediv in Hmsg. destruct y; discriminate.
Qed.

Lemma detect_winner_no_assertion {P} (board : list Z) (i : nat)
    (st : Z * list P) (item : P * list Z) :
  ~ raises_assertion
      (Evaluator.detect_winner T (Evaluator.evaluate K T) board i st item).
Proof.
  destruct st as [best winners], item as [player hand].
  intros [msg Hmsg]. unfold Evaluator.detect_winner in Hmsg.
  destruct (Evaluator.evaluate K T hand (take (i + 3) board)) as [rank|e] eqn:Hrank;
    cbn [mbind result_bind] in Hmsg;
    [|apply (evaluate_no_assertion hand (take (i + 3) board));
      exists msg; congruence].
  destruct (Evaluator.get_rank_class T rank) as [c|e] eqn:Hclass;
    cbn [mbind result_bind] in Hmsg;
    [|apply (get_rank_class_no_assertion rank); exists msg; congruence].
  destruct (Evaluator.class_to_string T c) as [label|e] eqn:Hlabel;
    cbn [mbind result_bind] in Hmsg;
    [|apply (dict_get_no_assertion (RANK_CLASS_TO_STRING T) c);
      exists msg; unfold Evaluator.class_to_string in Hlabel; congruence].
  destruct (Evaluator.get_five_card_rank_percentage T rank) as [f|e] eqn:Hscaled;
    cbn [mbind result_bind] in Hmsg;
    [|apply (rank_percentage_no_assertion rank); exists msg; congruence].
  repeat case_bool_decide; discriminate.
Qed.

Lemma street_no_assertion {P} (board : list Z) (hands : list (P * list Z))
    (winners : option (list P)) (i : nat) :
  ~ raises_assertion
      (Evaluator.street T (Evaluator.evaluate K T) board hands winners i).
Proof.
  intros [msg Hmsg]. unfold Evaluator.street in Hmsg.
  destruct (for_each hands _ (7463, [])) as [st|e] eqn:Hloop;
    cbn [mbind result_bind] in Hmsg; [discriminate|].
  apply (for_each_no_assertion hands
           (Evaluator.detect_winner T (Evaluator.evaluate K T) board i)
           (7463, []) (detect_winner_no_assertion board i)).
  exists msg. congruence.
Qed.

(** C9. For every board whose length is not exactly 5, [hand_summary]
    raises the [AssertionError] of the board length before it evaluates any
    hand: it does so whatever [self.evaluate] is.  For every board of
    exactly five cards the assertion passes: no [AssertionError] comes out
    of [hand_summary]. *)
Theorem hand_summary_board_length {P} (board : list Z)
    (hands : list (P * list Z)) :
  (length board <> 5%nat ->
   forall self_evaluate,
     Evaluator.hand_summary_of T self_evaluate board hands
     = Raise (AssertionError "Invalid board length"))
  /\ (length board = 5%nat ->
      ~ raises_assertion (Evaluator.hand_summary K T board hands)).
Proof.
  unfold Evaluator.hand_summary, Evaluator.hand_summary_of, Evaluator.BOARD_LENGTH.
  split; intros Hlen.
  - intros self_evaluate. rewrite bool_decide_eq_false_2 by exact Hlen.
    reflexivity.
  - rewrite bool_decide_eq_true_2 by exact Hlen. intros [msg Hmsg].
    destruct (for_each (seq 0 (length Evaluator.stages)) _ None)
      as [winners|e] eqn:Hloop; cbn [mbind result_bind] in Hmsg.
    + destruct winners; discriminate.
    + apply (for_each_no_assertion (seq 0 (length Evaluator.stages))
               (Evaluator.street T (Evaluator.evaluate K T) board hands)
               None (street_no_assertion board hands)).
      exists msg. congruence.
Qed.

End NoAssertion.

(** * Further properties *)

(** ** The five-card scorer off its precondition *)

Section FiveCardsBounds.
Context (K : CardCodec) (T : LookupTable).

(** X1. On fewer than five cards [_five] raises [IndexError], whatever the
    tables hold: no lookup is made. *)
Theorem five_too_few_cards (cards : list Z) :
  (length cards < 5)%nat ->
  Evaluator._five K T cards = Raise IndexError.
Proof.
  intros Hlen. unfold Evaluator._five.
  do 5 (destruct cards as [|? cards];
        [reflexivity | cbn [getitem lookup list_lookup mbind result_bind]]).
  cbn [length] in Hlen. lia.
Qed.

(** X2. On five cards or more [_five] does not fail for the extra cards:
    the flush test and the flush key read the first five cards only, so a
    flush among them scores as those five alone; without a flush the key of
    [unsuited_lookup] is the prime product of all the cards given. *)
Theorem five_extra_cards (cards : list Z) :
  (5 <= length cards)%nat ->
  (and_all (suit_field <$> take 5 cards) ≠ 0 ->
   Evaluator._five K T cards = Evaluator._five K T (take 5 cards))
  /\ (and_all (suit_field <$> take 5 cards) = 0 ->
      Evaluator._five K T cards
      = dict_get (unsuited_lookup T) (Card.prime_product_from_hand K cards)).
Proof.
  intros Hlen.
  destruct cards as [|c0 [|c1 [|c2 [|c3 [|c4 rest]]]]];
    try (cbn [length] in Hlen; lia).
  cbn [take]. unfold Evaluator._five.
  cbn [getitem lookup list_lookup mbind result_bind].
  rewrite suit_and_of_five. split; intros Hsuit.
  - rewrite !bool_decide_eq_true_2 by exact Hsuit. reflexivity.
  - rewrite bool_decide_eq_false_2 by (intros Hne; apply Hne, Hsuit).
    reflexivity.
Qed.

End FiveCardsBounds.

(** ** The best-of search, whatever the tables hold *)

Section BestOfAnyTable.
Context (K : CardCodec) (T : LookupTable).

Lemma scores_defined_elem (combos : list (list Z)) (combo : list Z) :
  scores_defined K T combos = true ->
  combo ∈ combos ->
  exists r, Evaluator._five K T combo = Ok r.
Proof.
  unfold scores_defined. rewrite forallb_forall.
  intros Hall Hin. apply list_elem_of_In, Hall in Hin.
  destruct (Evaluator._five K T combo) as [r|e]; [eauto | discriminate].
Qed.

(** When the minimum loop returns, every combination was scored. *)
Lemma keep_minimum_loop_returns (combos : list (list Z)) (start m : Z) :
  for_each combos (Evaluator.keep_minimum K T) start = Ok m ->
  forall combo, combo ∈ combos -> exists r, Evaluator._five K T combo = Ok r.
Proof.
  revert start. induction combos as [|c combos IH]; intros start Hrun combo Hin.
  - now apply elem_of_nil in Hin.
  - cbn [for_each] in Hrun.
    destruct (Evaluator.keep_minimum K T start c) as [next|e] eqn:Hstep;
      cbn [mbind result_bind] in Hrun; [|discriminate].
    apply elem_of_cons in Hin as [->|Hin]; [|exact (IH next Hrun combo Hin)].
    unfold Evaluator.keep_minimum in Hstep.
    destruct (Evaluator._five K T c) as [r|e]; [eauto | discriminate].
Qed.

(** Two enumerations with the same scores give the same minimum. *)
Lemma same_scores_same_minimum (combos combos' : list (list Z)) (start : Z) :
  scores_defined K T combos = true ->
  (forall c, c ∈ combos ->
             exists c', c' ∈ combos' /\
                        Evaluator._five K T c' = Evaluator._five K T c) ->
  (forall c', c' ∈ combos' ->
              exists c, c ∈ combos /\
                        Evaluator._five K T c = Evaluator._five K T c') ->
  for_each combos (Evaluator.keep_minimum K T) start
  = for_each combos' (Evaluator.keep_minimum K T) start.
Proof.
  intros Hdef Hto Hfrom.
  destruct (keep_minimum_loop K T combos start)
    as (m & Hrun & Hle & Hall & Hhit).
  { intros c Hc. exact (scores_defined_elem combos c Hdef Hc). }
  destruct (keep_minimum_loop K T combos' start)
    as (m' & Hrun' & Hle' & Hall' & Hhit').
  { intros c' Hc'. destruct (Hfrom c' Hc') as (c & Hc & Heq).
    destruct (scores_defined_elem combos c Hdef Hc) as [r Hr].
    exists r. congruence. }
  rewrite Hrun, Hrun'. f_equal. apply Z.le_antisymm.
  - destruct Hhit' as [->|(c' & Hc' & Hm')]; [exact Hle|].
    destruct (Hfrom c' Hc') as (c & Hc & Heq).
    destruct (Hall c Hc) as (r & Hr & Hmr).
    assert (r = m') by congruence. lia.
  - destruct Hhit as [->|(c & Hc & Hm)]; [exact Hle'|].
    destruct (Hto c Hc) as (c' & Hc' & Heq).
    destruct (Hall' c' Hc') as (r & Hr & Hmr).
    assert (r = m) by congruence. lia.
Qed.

(** Five cards and a reordering of them have the same score. *)
Lemma five_permutation_of_score (c c' : list Z) :
  length c = 5%nat -> c ≡ₚ c' ->
  Evaluator._five K T c = Evaluator._five K T c'.
Proof.
  intros Hlen Hperm.
  assert (Hlen' : length c' = 5%nat)
    by (rewrite <- Hlen; symmetry; apply Permutation_length, Hperm).
  rewrite (five_is_score_five K T c Hlen), (five_is_score_five K T c' Hlen').
  apply score_five_perm, Hperm.
Qed.

(** Every five-card subsequence of a list is a reordering of one of any
    permutation of the list, and scores the same. *)
Lemma combinations_perm_score (l l' : list Z) (c : list Z) :
  l ≡ₚ l' ->
  c ∈ combinations l 5 ->
  exists c', c' ∈ combinations l' 5 /\
             Evaluator._five K T c' = Evaluator._five K T c.
Proof.
  intros Hperm Hc. apply elem_of_combinations in Hc as [Hsub Hlen].
  apply sublist_submseteq in Hsub. rewrite Hperm in Hsub.
  apply submseteq_sublist_r in Hsub as (c' & Hcc' & Hsub').
  assert (Hlen' : length c' = 5%nat)
    by (rewrite <- Hlen; symmetry; apply Permutation_length, Hcc').
  exists c'. split; [apply elem_of_combinations; auto|].
  rewrite (five_is_score_five K T c Hlen), (five_is_score_five K T c' Hlen').
  symmetry. apply score_five_perm, Hcc'.
Qed.

(** X3. [evaluate] does not depend on the order of the cards nor on how
    they are split between hand and board: when the five-card combinations
    of the cards all have a score, any other hand and board holding the
    same cards evaluate to the same result. *)
Theorem evaluate_permutation_invariant (hand board hand' board' : list Z) :
  hand ++ board ≡ₚ hand' ++ board' ->
  scores_defined K T (combinations (hand ++ board) 5) = true ->
  Evaluator.evaluate K T hand board = Evaluator.evaluate K T hand' board'.
Proof.
  intros Hperm Hdef. unfold Evaluator.evaluate, dict_get.
  rewrite <- (Permutation_length Hperm), hand_size_map_lookup.
  assert (Hmin :
    for_each (combinations (hand ++ board) 5) (Evaluator.keep_minimum K T)
      (MAX_HIGH_CARD T)
    = for_each (combinations (hand' ++ board') 5) (Evaluator.keep_minimum K T)
        (MAX_HIGH_CARD T)).
  { apply same_scores_same_minimum; [exact Hdef | |].
    - intros c Hc. exact (combinations_perm_score _ _ c Hperm Hc).
    - intros c' Hc'. symmetry in Hperm.
      exact (combinations_perm_score _ _ c' Hperm Hc'). }
  repeat case_decide; cbn [mbind result_bind].
  - assert (Hlen : length (hand ++ board) = 5%nat) by lia.
    assert (Hlen' : length (hand' ++ board') = 5%nat)
      by (rewrite <- (Permutation_length Hperm); exact Hlen).
    rewrite (five_is_score_five K T _ Hlen), (five_is_score_five K T _ Hlen').
    apply score_five_perm, Hperm.
  - exact Hmin.
  - exact Hmin.
  - reflexivity.
Qed.

(** X4. Whenever [evaluate] returns a rank [m] for six or seven cards, then
    whatever the tables hold: every five-card subset of the cards has a
    score and none is below [m]; [m] is at most [MAX_HIGH_CARD], the value
    the search starts from; and [m] is that value or the score of one of
    the subsets.  A single missing key makes the whole evaluation raise. *)
Theorem evaluate_returns_minimum (hand board : list Z) (m : Z) :
  length (hand ++ board) = 6%nat \/ length (hand ++ board) = 7%nat ->
  Evaluator.evaluate K T hand board = Ok m ->
  m <= MAX_HIGH_CARD T
  /\ (forall s, five_card_subsets (hand ++ board) s ->
                exists r, Evaluator._five K T s = Ok r /\ m <= r)
  /\ (m = MAX_HIGH_CARD T
      \/ exists s, five_card_subsets (hand ++ board) s /\
                   Evaluator._five K T s = Ok m).
Proof.
  intros Hlen Hev.
  assert (Hrun :
    for_each (combinations (hand ++ board) 5) (Evaluator.keep_minimum K T)
      (MAX_HIGH_CARD T) = Ok m).
  { unfold Evaluator.evaluate, dict_get in Hev.
    rewrite hand_size_map_lookup in Hev.
    destruct Hlen as [Hlen|Hlen]; rewrite Hlen in Hev; exact Hev. }
  destruct (keep_minimum_loop K T (combinations (hand ++ board) 5)
              (MAX_HIGH_CARD T) (keep_minimum_loop_returns _ _ _ Hrun))
    as (m' & Hrun' & Hle & Hall & Hhit).
  assert (m' = m) by congruence. subst m'.
  split; [exact Hle|]. split.
  - intros s Hs. apply Hall, elem_of_combinations, Hs.
  - destruct Hhit as [->|(c & Hc & Hm)]; [now left|].
    right. exists c. split; [apply elem_of_combinations, Hc | exact Hm].
Qed.

End BestOfAnyTable.

(** ** From the cards to the label *)

Section Pipeline.
Context (K : CardCodec) (T : LookupTable).

(** X5. For five, six or seven cards whose lookups all yield ranks between
    1 and 7462, and cut points and labels as the specification has them,
    [evaluate], [get_rank_class] and [class_to_string] compose without an
    exception: the rank returned is between 1 and 7462, it has a rank
    class, and the class has a label. *)
Theorem evaluate_rank_labelled (hand board : list Z) :
  length (hand ++ board) = 5%nat \/ length (hand ++ board) = 6%nat
  \/ length (hand ++ board) = 7%nat ->
  constants_ok T = true ->
  labels_ok T = true ->
  lookups_in_range K T (combinations (hand ++ board) 5) = true ->
  exists m c label,
    Evaluator.evaluate K T hand board = Ok m /\
    1 <= m <= 7462 /\
    Evaluator.get_rank_class T m = Ok c /\
    Evaluator.class_to_string T c = Ok label.
Proof.
  intros Hlen Hok Hlabels Hrange.
  assert (Hrank : exists m,
             Evaluator.evaluate K T hand board = Ok m /\ 1 <= m <= 7462).
  { unfold Evaluator.evaluate, dict_get. rewrite hand_size_map_lookup.
    destruct Hlen as [Hlen|Hlen].
    - rewrite Hlen. cbn [decide mbind result_bind].
      apply (lookups_in_range_elem K T _ _ Hrange).
      apply elem_of_combinations. split; [reflexivity | exact Hlen].
    - destruct (constants_ok_inv T Hok) as [Hcuts _].
      destruct (keep_minimum_loop_min K T (combinations (hand ++ board) 5))
        as (m & Hrun & Hm & _); [lia | apply combinations_nonempty; lia
                                | exact Hrange |].
      exists m. split; [|exact Hm].
      destruct Hlen as [-> | ->]; exact Hrun. }
  destruct Hrank as (m & Hev & Hm).
  destruct (rank_labelled T m Hok Hlabels ltac:(lia)) as (c & label & Hc & Hl).
  exists m, c, label. auto.
Qed.

End Pipeline.

(** ** The Omaha evaluator off its precondition *)

Section OmahaBounds.
Context (K : CardCodec) (T : LookupTable).

Lemma combinations_too_short {A} (l : list A) (r : nat) :
  (length l < r)%nat -> combinations l r = [].
Proof.
  revert r. induction l as [|x l IH]; intros [|r] Hlen;
    cbn [length] in Hlen; try lia; cbn [combinations].
  - reflexivity.
  - rewrite (IH r), (IH (S r)) by lia. reflexivity.
Qed.

Lemma omaha_candidates_too_few (hand board : list Z) :
  (length hand < 2)%nat \/ (length board < 3)%nat ->
  omaha_candidates hand board = [].
Proof.
  unfold omaha_candidates. intros [Hhand|Hboard].
  - rewrite (combinations_too_short hand 2 Hhand). reflexivity.
  - rewrite (combinations_too_short board 3 Hboard).
    induction (combinations hand 2) as [|hole rest IH]; [reflexivity|].
    cbn [mbind list_bind fmap list_fmap app]. exact IH.
Qed.

(** X6. With fewer than two hole cards or fewer than three board cards the
    Omaha [evaluate] raises nothing and makes no lookup: it returns
    [MAX_HIGH_CARD], the worst rank, as if the player held the worst
    hand. *)
Theorem plo_evaluate_too_few_cards (hand board : list Z) :
  (length hand < 2)%nat \/ (length board < 3)%nat ->
  PLOEvaluator.evaluate K T hand board = Ok (MAX_HIGH_CARD T).
Proof.
  intros Hfew. rewrite plo_evaluate_flat.
  rewrite (omaha_candidates_too_few hand board Hfew). reflexivity.
Qed.

(** X7. The rank the Omaha [evaluate] returns is the score of five of the
    cards of hand and board together: with at least two hole cards and
    three board cards, all lookups in range, there is a five-card subset of
    [hand ++ board] that [_five] scores at that rank.  So the Omaha rank is
    never better than the best over all five-card subsets. *)
Theorem plo_rank_of_a_subset (hand board : list Z) :
  (2 <= length hand)%nat ->
  (3 <= length board)%nat ->
  MAX_HIGH_CARD T = 7462 ->
  lookups_in_range K T (omaha_candidates hand board) = true ->
  exists m s,
    PLOEvaluator.evaluate K T hand board = Ok m /\
    five_card_subsets (hand ++ board) s /\
    Evaluator._five K T s = Ok m.
Proof.
  intros Hhand Hboard Hmax Hrange.
  destruct (keep_minimum_loop_min K T (omaha_candidates hand board) Hmax)
    as (m & Hrun & _ & (c & Hc & Hm) & _); [|exact Hrange|].
  { intros Hnil.
    assert (Hin : take 3 board ++ take 2 hand ∈ omaha_candidates hand board).
    { apply elem_of_omaha_candidates. exists (take 2 hand), (take 3 board).
      rewrite !length_take. repeat split; try apply sublist_take; lia. }
    rewrite Hnil in Hin. now apply elem_of_nil in Hin. }
  apply elem_of_omaha_candidates in Hc
    as (hole & shared & Hh & Hhl & Hb & Hbl & ->).
  exists m, (hole ++ shared). split; [rewrite plo_evaluate_flat; exact Hrun|].
  assert (Hlen : length (hole ++ shared) = 5%nat)
    by (rewrite length_app; lia).
  split; [split; [apply sublist_app; assumption | exact Hlen]|].
  rewrite <- Hm. apply five_permutation_of_score; [exact Hlen|].
  apply Permutation_app_comm.
Qed.

Lemma omaha_perm_score (hand board hand' board' : list Z) (c : list Z) :
  hand ≡ₚ hand' ->
  board ≡ₚ board' ->
  c ∈ omaha_candidates hand board ->
  exists c', c' ∈ omaha_candidates hand' board' /\
             Evaluator._five K T c' = Evaluator._five K T c.
Proof.
  intros Hhand Hboard Hc.
  apply elem_of_omaha_candidates in Hc
    as (hole & shared & Hh & Hhl & Hb & Hbl & ->).
  apply sublist_submseteq in Hh, Hb. rewrite Hhand in Hh. rewrite Hboard in Hb.
  apply submseteq_sublist_r in Hh as (hole' & Hhole & Hh').
  apply submseteq_sublist_r in Hb as (shared' & Hshared & Hb').
  exists (shared' ++ hole'). split.
  - apply elem_of_omaha_candidates. exists hole', shared'.
    rewrite <- (Permutation_length Hhole), <- (Permutation_length Hshared).
    auto.
  - symmetry. apply five_permutation_of_score.
    + rewrite length_app. lia.
    + now rewrite Hhole, Hshared.
Qed.

(** X8. The Omaha [evaluate] does not depend on the order of the hole
    cards nor on the order of the board: when all the hands it scores have
    a score, reordering the hand and reordering the board give the same
    result. *)
Theorem plo_evaluate_permutation_invariant (hand board hand' board' : list Z) :
  hand ≡ₚ hand' ->
  board ≡ₚ board' ->
  scores_defined K T (omaha_candidates hand board) = true ->
  PLOEvaluator.evaluate K T hand board
  = PLOEvaluator.evaluate K T hand' board'.
Proof.
  intros Hhand Hboard Hdef. rewrite !plo_evaluate_flat.
  apply same_scores_same_minimum; [exact Hdef | |].
  - intros c Hc. exact (omaha_perm_score _ _ _ _ c Hhand Hboard Hc).
  - intros c' Hc'. symmetry in Hhand, Hboard.
    exact (omaha_perm_score _ _ _ _ c' Hhand Hboard Hc').
Qed.

End OmahaBounds.

(** ** Rank classes on all the integers *)

Section RankClassBounds.
Context (T : LookupTable).

(** X9. No negative rank is rejected: for every rank below zero
    [get_rank_class] returns a rank class, and when [MAX_STRAIGHT_FLUSH] is
    not negative it is the class of [MAX_STRAIGHT_FLUSH], since the test
    [hr >= 0] guards the first branch only. *)
Theorem get_rank_class_negative (hr : Z) :
  constants_ok T = true ->
  hr < 0 ->
  (exists c, Evaluator.get_rank_class T hr = Ok c)
  /\ (0 <= MAX_STRAIGHT_FLUSH T ->
      Evaluator.get_rank_class T hr
      = dict_get (MAX_TO_RANK_CLASS T) (MAX_STRAIGHT_FLUSH T)).
Proof.
  intros Hok Hhr. destruct (constants_ok_inv T Hok) as [Hcuts Hcls].
  rewrite Forall_forall in Hcls.
  assert (Hchosen : exists k, chosen_cut_point T hr = Some k /\ k ∈ cut_points T
                              /\ (0 <= MAX_STRAIGHT_FLUSH T ->
                                  k = MAX_STRAIGHT_FLUSH T)).
  { unfold chosen_cut_point, cut_points.
    replace (hr >=? 0) with false by lia. cbn [andb].
    repeat match goal with
           | |- context [?a <=? ?b] => destruct (Z.leb_spec a b)
           end;
      try lia;
      (eexists; split; [reflexivity|]; split; [repeat constructor | lia]). }
  destruct Hchosen as (k & Hk & Hin & Hsf).
  rewrite get_rank_class_chosen, Hk.
  destruct (Hcls k Hin) as [c Hc]. split.
  - exists c. unfold dict_get. rewrite Hc. reflexivity.
  - intros Hmsf. rewrite (Hsf Hmsf). reflexivity.
Qed.

(** X10. The cut points are inclusive upper bounds: the class of a rank
    from 0 to 7462 is the class of the least cut point at or above the
    rank, so a cut point itself still belongs to its own class. *)
Theorem get_rank_class_least_cut_point (hr : Z) :
  constants_ok T = true ->
  0 <= hr <= 7462 ->
  (exists k,
     k ∈ cut_points T /\ hr <= k /\
     (forall k', k' ∈ cut_points T -> hr <= k' -> k <= k') /\
     Evaluator.get_rank_class T hr = dict_get (MAX_TO_RANK_CLASS T) k)
  /\ (hr ∈ cut_points T ->
      Evaluator.get_rank_class T hr = dict_get (MAX_TO_RANK_CLASS T) hr).
Proof.
  intros Hok Hhr.
  pose proof (chosen_cut_point_spec T hr Hok ltac:(lia)) as Hspec.
  rewrite get_rank_class_chosen.
  destruct (chosen_cut_point T hr) as [k|]; [|lia].
  destruct Hspec as (Hk & Hrange & Hleast). split.
  - exists k. repeat split; [exact Hk | lia | exact Hleast].
  - intros Hcut. pose proof (Hleast hr Hcut ltac:(lia)) as Hle.
    replace k with hr by lia. reflexivity.
Qed.

End RankClassBounds.

(** ** The rank percentage keeps the order of the ranks *)

Section PercentageOrder.
Context (T : LookupTable).

Lemma strictly_below_trans (r1 r2 r3 : result spec_float) :
  strictly_below r1 r2 = true ->
  strictly_below r2 r3 = true ->
  strictly_below r1 r3 = true.
Proof.
  destruct r1 as [[| | |[] m1 e1]|]; try discriminate;
    destruct r2 as [[| | |[] m2 e2]|]; try discriminate;
    destruct r3 as [[| | |[] m3 e3]|]; try discriminate.
  unfold strictly_below, SFltb, SFcompare.
  change (Pos.compare_cont Eq) with Pos.compare.
  destruct (Z.compare_spec e1 e2), (Z.compare_spec e2 e3),
    (Z.compare_spec e1 e3); try discriminate; try lia; try reflexivity.
  destruct (Pos.compare_spec m1 m2), (Pos.compare_spec m2 m3),
    (Pos.compare_spec m1 m3); try discriminate; try lia; reflexivity.
Qed.

(** Checked on each rank from 1 to 7461: it scales strictly below the next
    rank. *)
Lemma consecutive_ranks_scaled :
  forallb (fun r => strictly_below (scaled_rank r) (scaled_rank (r + 1)))
    (Z.of_nat <$> seq 1 (Z.to_nat 7461))
  = true.
Proof. vm_compute. reflexivity. Qed.

Lemma scaled_rank_next (r : Z) :
  1 <= r <= 7461 ->
  strictly_below (scaled_rank r) (scaled_rank (r + 1)) = true.
Proof.
  intros Hr. pose proof consecutive_ranks_scaled as Hall.
  rewrite forallb_forall in Hall. apply Hall.
  apply list_elem_of_In, list_elem_of_fmap. exists (Z.to_nat r).
  split; [lia|]. apply list_elem_of_In, in_seq. lia.
Qed.

Lemma scaled_rank_increasing (n : nat) (r : Z) :
  1 <= r ->
  r + Z.of_nat (S n) <= 7462 ->
  strictly_below (scaled_rank r) (scaled_rank (r + Z.of_nat (S n))) = true.
Proof.
  induction n as [|n IH]; intros Hr Hmax.
  - apply scaled_rank_next. lia.
  - apply (strictly_below_trans _ (scaled_rank (r + Z.of_nat (S n)))).
    + apply IH; lia.
    + replace (r + Z.of_nat (S (S n))) with (r + Z.of_nat (S n) + 1) by lia.
      apply scaled_rank_next. lia.
Qed.

(** X11. The percentage keeps the order of the valid ranks strictly: for
    ranks [r1 < r2] between 1 and 7462 the percentage of [r1] is a float
    strictly below the percentage of [r2]; the rounding of the division
    never merges two ranks. *)
Theorem rank_percentage_strictly_increasing (r1 r2 : Z) :
  MAX_HIGH_CARD T = 7462 ->
  1 <= r1 -> r1 < r2 -> r2 <= 7462 ->
  exists f1 f2,
    Evaluator.get_five_card_rank_percentage T r1 = Ok f1 /\
    Evaluator.get_five_card_rank_percentage T r2 = Ok f2 /\
    SFltb f1 f2 = true.
Proof.
  intros Hmax H1 H12 H2.
  rewrite !(rank_percentage_unfold T _ Hmax).
  pose proof (scaled_rank_increasing (Z.to_nat (r2 - r1 - 1)) r1 H1 ltac:(lia))
    as Hlt.
  replace (r1 + Z.of_nat (S (Z.to_nat (r2 - r1 - 1)))) with r2 in Hlt by lia.
  unfold scaled_rank in Hlt.
  destruct (x ← Float.of_int r1;
            Ok (SFdiv Float.prec Float.emax x worst_rank_float))
    as [[| | |[] m1 e1]|]; try discriminate.
  destruct (x ← Float.of_int r2;
            Ok (SFdiv Float.prec Float.emax x worst_rank_float))
    as [[| | |[] m2 e2]|]; try discriminate.
  eexists _, _. split; [reflexivity|]. split; [reflexivity | exact Hlt].
Qed.

End PercentageOrder.

(** ** The street reporter, whatever the tables hold *)

Section HandSummaryBounds.
Context (K : CardCodec) (T : LookupTable) {P : Type}.
Implicit Types (hands : list (P * list Z)) (ranks : list (P * Z)).

Lemma ranks_on_players (ev : list Z -> list Z -> result Z) (cards : list Z)
    hands ranks :
  ranks_on ev cards hands ranks -> ranks.*1 = hands.*1.
Proof.
  induction 1 as [|item pr hands ranks [Hfst _] _ IH]; [reflexivity|].
  cbn [fmap list_fmap]. now rewrite Hfst, IH.
Qed.

(** [get_rank_class] returns for no rank above 7462. *)
Lemma get_rank_class_returns_bound (hr c : Z) :
  constants_ok T = true ->
  Evaluator.get_rank_class T hr = Ok c ->
  hr <= 7462.
Proof.
  intros Hok Hc. destruct (Z.le_gt_cases hr 7462) as [Hle|Hgt]; [exact Hle|].
  pose proof (chosen_cut_point_spec T hr Hok ltac:(lia)) as Hspec.
  rewrite get_rank_class_chosen in Hc.
  destruct (chosen_cut_point T hr) as [k|]; [lia | discriminate].
Qed.

Section WithEvaluate.
Context (self_evaluate : list Z -> list Z -> result Z).

(** When the inner loop returns, every hand got a rank that has a rank
    class. *)
Lemma street_loop_classed (board : list Z) (i : nat) hands (st st' : Z * list P) :
  for_each hands (Evaluator.detect_winner T self_evaluate board i) st = Ok st' ->
  exists ranks,
    ranks_on self_evaluate (take (i + 3) board) hands ranks /\
    Forall (fun pr : P * Z =>
              exists c, Evaluator.get_rank_class T pr.2 = Ok c) ranks /\
    st' = fold_left lead ranks st.
Proof.
  unfold ranks_on.
  revert st. induction hands as [|[player hand] hands IH]; intros st Hloop;
    cbn [for_each] in Hloop.
  - exists []. repeat split; [constructor | constructor |].
    cbn [fold_left]. congruence.
  - destruct (Evaluator.detect_winner T self_evaluate board i st (player, hand))
      as [st1|e] eqn:Hstep; cbn [mbind result_bind] in Hloop; [|discriminate].
    destruct (IH _ Hloop) as (ranks & Hranks & Hclassed & ->).
    pose proof Hstep as Hlead.
    apply detect_winner_returns in Hlead as (rank & Hrank & ->).
    assert (Hclass : exists c, Evaluator.get_rank_class T rank = Ok c).
    { destruct st as [best leading].
      unfold Evaluator.detect_winner in Hstep. rewrite Hrank in Hstep.
      cbn [mbind result_bind] in Hstep.
      destruct (Evaluator.get_rank_class T rank) as [c|e]; [eauto | discriminate]. }
    exists ((player, rank) :: ranks). split; [|split; [|reflexivity]].
    + constructor; [|exact Hranks]. cbn [fst snd]. auto.
    + constructor; [exact Hclass | exact Hclassed].
Qed.

(** When [hand_summary] returns, each of the three streets was gone
    through: every hand has a rank on the flop, the turn and the river, and
    the river ranks all have a rank class. *)
Lemma hand_summary_of_streets (board : list Z) hands (w : list P) :
  Evaluator.hand_summary_of T self_evaluate board hands = Ok w ->
  length board = 5%nat /\
  exists flop turn river,
    ranks_on self_evaluate (take 3 board) hands flop /\
    ranks_on self_evaluate (take 4 board) hands turn /\
    ranks_on self_evaluate board hands river /\
    Forall (fun pr : P * Z =>
              exists c, Evaluator.get_rank_class T pr.2 = Ok c) river /\
    w = leaders river.
Proof.
  unfold Evaluator.hand_summary_of, Evaluator.BOARD_LENGTH.
  case_bool_decide as Hlen; [|discriminate].
  cbn [Evaluator.stages length seq for_each]. intros Hsummary.
  split; [exact Hlen|].
  destruct (Evaluator.street T self_evaluate board hands None 0)
    as [w0|e] eqn:Hflop; cbn [mbind result_bind] in Hsummary; [|discriminate].
  destruct (Evaluator.street T self_evaluate board hands w0 1)
    as [w1|e] eqn:Hturn; cbn [mbind result_bind] in Hsummary; [|discriminate].
  destruct (Evaluator.street T self_evaluate board hands w1 2)
    as [w2|e] eqn:Hriver; cbn [mbind result_bind] in Hsummary;
    [|discriminate].
  apply street_returns in Hflop as (flop & Hflop & _).
  apply street_returns in Hturn as (turn & Hturn & _).
  unfold Evaluator.street in Hriver.
  destruct (for_each hands _ (7463, [])) as [st|e] eqn:Hloop;
    cbn [mbind result_bind] in Hriver; [|discriminate].
  apply street_loop_classed in Hloop as (river & Hriver' & Hclassed & ->).
  rewrite firstn_all2 in Hriver' by lia.
  exists flop, turn, river. repeat split; try assumption.
  unfold leaders. destruct w2; congruence.
Qed.

(** X12. The winners are players of the mapping, in its order: whenever
    [hand_summary] returns, whatever [self.evaluate] is, its result is a
    subsequence of the mapping's keys, so no player is listed twice; and on
    a five-card board an empty mapping gives the empty list. *)
Theorem hand_summary_winners_are_players (board : list Z) hands :
  (forall w,
     Evaluator.hand_summary_of T self_evaluate board hands = Ok w ->
     sublist w hands.*1 /\ (NoDup hands.*1 -> NoDup w))
  /\ (length board = 5%nat ->
      hands = [] ->
      Evaluator.hand_summary_of T self_evaluate board hands = Ok []).
Proof.
  split.
  - intros w Hsummary.
    apply hand_summary_of_returns in Hsummary as (_ & ranks & Hranks & ->).
    assert (Hsub : sublist (leaders ranks) hands.*1).
    { rewrite leaders_minimum, <- (ranks_on_players _ _ _ _ Hranks).
      apply fmap_sublist, sublist_filter. }
    split; [exact Hsub|]. intros Hnodup.
    exact (sublist_NoDup _ _ Hnodup Hsub).
  - intros Hlen ->. unfold Evaluator.hand_summary_of, Evaluator.BOARD_LENGTH.
    rewrite bool_decide_eq_true_2 by exact Hlen. reflexivity.
Qed.

(** X14. Whenever [hand_summary] returns for a non-empty mapping, there is
    at least one winner: a rank reaches the comparison with the starting
    value 7463 only after [get_rank_class] accepted it, so it is at most
    7462 and the first player always takes the lead. *)
Theorem hand_summary_has_a_winner (board : list Z) hands (w : list P) :
  constants_ok T = true ->
  hands <> [] ->
  Evaluator.hand_summary_of T self_evaluate board hands = Ok w ->
  w <> [].
Proof.
  intros Hok Hne Hsummary.
  apply hand_summary_of_streets in Hsummary
    as (_ & _ & _ & river & _ & _ & Hriver & Hclassed & ->).
  apply leaders_nonempty.
  - intros ->. apply Forall2_nil_inv_r in Hriver. contradiction.
  - eapply Forall_impl; [exact Hclassed|]. cbn.
    intros pr [c Hc]. exact (get_rank_class_returns_bound _ _ Hok Hc).
Qed.

End WithEvaluate.

Lemma evaluate_returns_size (hand board : list Z) (m : Z) :
  Evaluator.evaluate K T hand board = Ok m ->
  (5 <= length (hand ++ board) <= 7)%nat.
Proof.
  unfold Evaluator.evaluate, dict_get. rewrite hand_size_map_lookup.
  repeat case_decide; cbn [mbind result_bind]; intros Hev;
    [lia | lia | lia | discriminate].
Qed.

(** X13. The length of the hands is not checked, and yet only two-card
    hands get through: whenever [Evaluator.hand_summary] returns, every
    hand of the mapping holds exactly two cards, since each hand is
    evaluated with three board cards on the flop and with five on the
    river. *)
Theorem hand_summary_two_card_hands (board : list Z) hands (w : list P) :
  Evaluator.hand_summary K T board hands = Ok w ->
  Forall (fun item : P * list Z => length item.2 = Evaluator.HAND_LENGTH) hands.
Proof.
  intros Hsummary.
  apply hand_summary_of_streets in Hsummary
    as (Hlen & flop & _ & river & Hflop & _ & Hriver & _ & _).
  apply Forall_forall. intros [player hand] Hin.
  apply list_elem_of_lookup in Hin as [i Hi].
  destruct (Forall2_lookup_l _ _ _ _ _ Hflop Hi) as (pr3 & _ & _ & Hev3).
  destruct (Forall2_lookup_l _ _ _ _ _ Hriver Hi) as (pr5 & _ & _ & Hev5).
  apply evaluate_returns_size in Hev3, Hev5.
  cbn [snd] in *. rewrite length_app in Hev3, Hev5.
  rewrite length_take in Hev3. unfold Evaluator.HAND_LENGTH. lia.
Qed.

(** X15. A [PLOEvaluator] summarizes with the Omaha [evaluate]: whenever
    its [hand_summary] returns, the board has five cards and the result is
    the leader set of the Omaha ranks on the full board, the players at the
    minimum Omaha rank; and it does return when each hand has an Omaha rank
    between 1 and 7462 on the flop, the turn and the river. *)
Theorem plo_hand_summary_river_leaders (board : list Z) hands :
  (forall w,
     PLOEvaluator.hand_summary K T board hands = Ok w ->
     length board = 5%nat /\
     exists ranks,
       ranks_on (PLOEvaluator.evaluate K T) board hands ranks /\
       w = leaders ranks /\
       w = (filter (fun pr : P * Z => pr.2 = foldr Z.min 7463 ranks.*2)
              ranks).*1)
  /\ (length board = 5%nat ->
      constants_ok T = true ->
      labels_ok T = true ->
      streets_in_range (PLOEvaluator.evaluate K T) board hands = true ->
      exists ranks,
        ranks_on (PLOEvaluator.evaluate K T) board hands ranks /\
        PLOEvaluator.hand_summary K T board hands = Ok (leaders ranks)).
Proof.
  unfold PLOEvaluator.hand_summary. split.
  - intros w Hsummary.
    apply hand_summary_of_returns in Hsummary as (Hlen & ranks & Hranks & ->).
    split; [exact Hlen|]. exists ranks.
    split; [exact Hranks|]. split; [reflexivity | apply leaders_minimum].
  - intros Hlen Hok Hlabels Hstreets.
    destruct (hand_summary_of_river T (PLOEvaluator.evaluate K T) board hands
                Hlen Hok Hlabels Hstreets) as (ranks & Hranks & _ & Hsummary).
    exists ranks. split; [exact Hranks | exact Hsummary].
Qed.

End HandSummaryBounds.

(** * The properties on the sample data *)

Section Samples.
Import Sample.

Example royal_flush_scores_one :
  Evaluator._five codec table royal_flush = Ok 1.
Proof. vm_compute. reflexivity. Qed.

Example seven_cards_best_is_quads :
  Evaluator.evaluate codec table [As; Ah] [Ad; Ac; Ks; Kh; Kd] = Ok 11.
Proof. vm_compute. reflexivity. Qed.

(** Any five of these nine cards would make four aces, rank 11; with two
    hole cards at most the best Omaha hand is kings full of aces. *)
Example omaha_needs_two_hole_cards :
  PLOEvaluator.evaluate codec table [As; Ah; Ad; Ac] [Ks; Kh; Kd; Kc; Qs]
  = Ok 179
  /\ Evaluator._five codec table [As; Ah; Ad; Ac; Ks] = Ok 11.
Proof. split; vm_compute; reflexivity. Qed.

Example summary_of_two_players :
  Evaluator.hand_summary codec table [Ad; Ac; Ks; Kh; Kd]
    [("A"%string, [As; Ah]); ("B"%string, [Kc; Qs])]
  = Ok ["A"%string].
Proof. vm_compute. reflexivity. Qed.

(** A rank below zero fails the first test of [get_rank_class] and is
    caught by the second: it gets the class of [MAX_STRAIGHT_FLUSH]. *)
Example negative_rank_has_a_class :
  Evaluator.get_rank_class table (-1) = Ok 1.
Proof. vm_compute. reflexivity. Qed.

Lemma five_flush_or_unsuited_witness :
  length royal_flush = 5%nat
  /\ and_all (suit_field <$> royal_flush) = 4096
  /\ Evaluator._five codec table royal_flush
     = dict_get (flush_lookup table)
         (Card.prime_product_from_rankbits codec
            (or_all (rank_bits <$> royal_flush))).
Proof.
  split; [reflexivity|]. split; [reflexivity|].
  apply (five_flush_or_unsuited codec table royal_flush); [reflexivity|].
  vm_compute. lia.
Defined.

Lemma five_permutation_invariant_witness :
  Evaluator._five codec table [As; Ks; Qs; Js; Ts]
  = Evaluator._five codec table [Ts; Js; Qs; Ks; As].
Proof.
  apply (five_permutation_invariant codec table [As; Ks; Qs; Js; Ts]);
    [reflexivity|].
  exact (Permutation_rev [As; Ks; Qs; Js; Ts]).
Defined.

Lemma evaluate_minimum_of_subsets_witness :
  lookups_in_range codec table
    (combinations ([As; Ah] ++ [Ad; Ac; Ks; Kh; Kd]) 5) = true
  /\ exists m,
       Evaluator.evaluate codec table [As; Ah] [Ad; Ac; Ks; Kh; Kd] = Ok m /\
       minimum_score codec table
         (five_card_subsets ([As; Ah] ++ [Ad; Ac; Ks; Kh; Kd])) m.
Proof.
  split; [vm_compute; reflexivity|].
  apply (evaluate_minimum_of_subsets codec table [As; Ah] [Ad; Ac; Ks; Kh; Kd]).
  - right. reflexivity.
  - reflexivity.
  - vm_compute. reflexivity.
Defined.

(** Two hole cards and no board: no rank, and no error of the evaluator's
    own either, but the [KeyError] of the missing key 2 of
    [hand_size_map]. *)
Lemma evaluate_preflop_key_error :
  Evaluator.hand_size_map codec table !! 2 = None
  /\ Evaluator.evaluate codec table [As; Ah] [] = Raise (KeyError 2).
Proof. split; vm_compute; reflexivity. Qed.

Lemma evaluate_unsupported_size_witness :
  Evaluator.evaluate codec table [As; Ah] [Ad; Ac] = Raise (KeyError 4).
Proof.
  apply (evaluate_unsupported_size codec table [As; Ah] [Ad; Ac]);
    simpl; lia.
Defined.

Lemma plo_evaluate_minimum_witness :
  lookups_in_range codec table
    (omaha_candidates [As; Ah; Ad; Ac] [Ks; Kh; Kd; Kc; Qs]) = true
  /\ exists m,
       PLOEvaluator.evaluate codec table [As; Ah; Ad; Ac] [Ks; Kh; Kd; Kc; Qs]
       = Ok m /\
       minimum_score codec table
         (omaha_hands [As; Ah; Ad; Ac] [Ks; Kh; Kd; Kc; Qs]) m.
Proof.
  split; [vm_compute; reflexivity|].
  apply (plo_evaluate_minimum codec table
           [As; Ah; Ad; Ac] [Ks; Kh; Kd; Kc; Qs]).
  - reflexivity.
  - reflexivity.
  - reflexivity.
  - vm_compute. reflexivity.
Defined.

(** Rank 0 is outside 1..7462 and [get_rank_class] returns a class for it. *)
Lemma get_rank_class_accepts_zero :
  constants_ok table = true
  /\ ~ (1 <= 0 <= 7462)
  /\ Evaluator.get_rank_class table 0 = Ok 0.
Proof.
  split; [vm_compute; reflexivity|]. split; [lia|]. vm_compute. reflexivity.
Qed.

Lemma get_rank_class_invalid_above_witness :
  constants_ok table = true
  /\ (Evaluator.get_rank_class table 7463
      = Raise (Exception "Inavlid hand rank, cannot return rank class")
      <-> 7462 < 7463)
  /\ (7463 <= 7462 -> exists c, Evaluator.get_rank_class table 7463 = Ok c).
Proof.
  split; [vm_compute; reflexivity|].
  apply (get_rank_class_invalid_above table 7463); [vm_compute; reflexivity | lia].
Defined.

Lemma get_rank_class_monotone_witness :
  constants_ok table = true
  /\ classes_ascending table = true
  /\ exists c1 c2,
       Evaluator.get_rank_class table 10 = Ok c1 /\
       Evaluator.get_rank_class table 11 = Ok c2 /\
       c1 <= c2 /\ (10 = 11 -> c1 = c2).
Proof.
  split; [vm_compute; reflexivity|]. split; [vm_compute; reflexivity|].
  apply (get_rank_class_monotone table 10 11);
    [vm_compute; reflexivity | vm_compute; reflexivity | lia | lia | lia].
Defined.

(** The percentage of rank 1, the best hand, is not 0.0. *)
Lemma rank_percentage_of_one_not_zero :
  MAX_HIGH_CARD table = 7462
  /\ Evaluator.get_five_card_rank_percentage table 1
     = Ok (S754_finite false 4944182276523600 (-65))
  /\ SFeqb (S754_finite false 4944182276523600 (-65)) Float.zero = false
  /\ SFltb Float.zero (S754_finite false 4944182276523600 (-65)) = true.
Proof. repeat split; vm_compute; reflexivity. Qed.

Lemma rank_percentage_scaling_witness :
  MAX_HIGH_CARD table = 7462
  /\ Evaluator.get_five_card_rank_percentage table 7462 = Ok Float.one
  /\ Evaluator.get_five_card_rank_percentage table 1
     = Ok (S754_finite false 4944182276523600 (-65)).
Proof.
  split; [reflexivity|].
  destruct (rank_percentage_scaling table 7462 eq_refl)
    as (_ & Hworst & Hbest & _).
  split; [exact Hworst | exact Hbest].
Defined.

Lemma hand_summary_river_leaders_witness :
  streets_in_range (Evaluator.evaluate codec table) [Ad; Ac; Ks; Kh; Kd]
    [("A"%string, [As; Ah]); ("B"%string, [Kc; Qs])] = true
  /\ exists ranks,
       ranks_on (Evaluator.evaluate codec table) [Ad; Ac; Ks; Kh; Kd]
         [("A"%string, [As; Ah]); ("B"%string, [Kc; Qs])] ranks /\
       ranks_valid ranks /\
       Evaluator.hand_summary codec table [Ad; Ac; Ks; Kh; Kd]
         [("A"%string, [As; Ah]); ("B"%string, [Kc; Qs])]
       = Ok (leaders ranks) /\
       leaders ranks <> [].
Proof.
  split; [vm_compute; reflexivity|].
  apply (hand_summary_river_leaders codec table [Ad; Ac; Ks; Kh; Kd]
           [("A"%string, [As; Ah]); ("B"%string, [Kc; Qs])]).
  - reflexivity.
  - discriminate.
  - vm_compute. reflexivity.
  - vm_compute. reflexivity.
  - vm_compute. reflexivity.
Defined.

End Samples.

(** * The further properties on the sample data *)

Section FurtherSamples.
Import Sample.

Lemma five_too_few_cards_witness :
  Evaluator._five codec table [As; Ks] = Raise IndexError.
Proof. apply (five_too_few_cards codec table [As; Ks]). simpl. lia. Defined.

Lemma five_extra_cards_witness :
  and_all (suit_field <$> take 5 (royal_flush ++ [Ah])) = 4096
  /\ Evaluator._five codec table (royal_flush ++ [Ah])
     = Evaluator._five codec table (take 5 (royal_flush ++ [Ah])).
Proof.
  split; [reflexivity|].
  apply (five_extra_cards codec table (royal_flush ++ [Ah])); [simpl; lia|].
  vm_compute. lia.
Defined.

Lemma evaluate_permutation_invariant_witness :
  scores_defined codec table
    (combinations ([As; Ah] ++ [Ad; Ac; Ks; Kh; Kd]) 5) = true
  /\ Evaluator.evaluate codec table [As; Ah] [Ad; Ac; Ks; Kh; Kd]
     = Evaluator.evaluate codec table [Kd; Kh] [Ks; Ac; Ad; Ah; As].
Proof.
  split; [vm_compute; reflexivity|].
  apply (evaluate_permutation_invariant codec table
           [As; Ah] [Ad; Ac; Ks; Kh; Kd] [Kd; Kh] [Ks; Ac; Ad; Ah; As]).
  - exact (Permutation_rev ([As; Ah] ++ [Ad; Ac; Ks; Kh; Kd])).
  - vm_compute. reflexivity.
Defined.

Lemma evaluate_returns_minimum_witness :
  Evaluator.evaluate codec table [As; Ah] [Ad; Ac; Ks; Kh; Kd] = Ok 11
  /\ 11 <= MAX_HIGH_CARD table
  /\ (forall s, five_card_subsets ([As; Ah] ++ [Ad; Ac; Ks; Kh; Kd]) s ->
                exists r, Evaluator._five codec table s = Ok r /\ 11 <= r)
  /\ (11 = MAX_HIGH_CARD table
      \/ exists s, five_card_subsets ([As; Ah] ++ [Ad; Ac; Ks; Kh; Kd]) s /\
                   Evaluator._five codec table s = Ok 11).
Proof.
  split; [vm_compute; reflexivity|].
  apply (evaluate_returns_minimum codec table [As; Ah] [Ad; Ac; Ks; Kh; Kd] 11).
  - right. reflexivity.
  - vm_compute. reflexivity.
Defined.

Lemma evaluate_rank_labelled_witness :
  lookups_in_range codec table
    (combinations ([As; Ah] ++ [Ad; Ac; Ks; Kh]) 5) = true
  /\ exists m c label,
       Evaluator.evaluate codec table [As; Ah] [Ad; Ac; Ks; Kh] = Ok m /\
       1 <= m <= 7462 /\
       Evaluator.get_rank_class table m = Ok c /\
       Evaluator.class_to_string table c = Ok label.
Proof.
  split; [vm_compute; reflexivity|].
  apply (evaluate_rank_labelled codec table [As; Ah] [Ad; Ac; Ks; Kh]).
  - right. left. reflexivity.
  - vm_compute. reflexivity.
  - vm_compute. reflexivity.
  - vm_compute. reflexivity.
Defined.

Lemma plo_evaluate_too_few_cards_witness :
  PLOEvaluator.evaluate codec table [As; Ah; Ad; Ac] [Ks; Kh]
  = Ok (MAX_HIGH_CARD table).
Proof.
  apply (plo_evaluate_too_few_cards codec table [As; Ah; Ad; Ac] [Ks; Kh]).
  right. simpl. lia.
Defined.

Lemma plo_rank_of_a_subset_witness :
  lookups_in_range codec table
    (omaha_candidates [As; Ah; Ad; Ac] [Ks; Kh; Kd; Kc; Qs]) = true
  /\ exists m s,
       PLOEvaluator.evaluate codec table [As; Ah; Ad; Ac] [Ks; Kh; Kd; Kc; Qs]
       = Ok m /\
       five_card_subsets ([As; Ah; Ad; Ac] ++ [Ks; Kh; Kd; Kc; Qs]) s /\
       Evaluator._five codec table s = Ok m.
Proof.
  split; [vm_compute; reflexivity|].
  apply (plo_rank_of_a_subset codec table
           [As; Ah; Ad; Ac] [Ks; Kh; Kd; Kc; Qs]).
  - simpl. lia.
  - simpl. lia.
  - reflexivity.
  - vm_compute. reflexivity.
Defined.

Lemma plo_evaluate_permutation_invariant_witness :
  scores_defined codec table
    (omaha_candidates [As; Ah; Ad; Ac] [Ks; Kh; Kd; Kc; Qs]) = true
  /\ PLOEvaluator.evaluate codec table [As; Ah; Ad; Ac] [Ks; Kh; Kd; Kc; Qs]
     = PLOEvaluator.evaluate codec table [Ac; Ad; Ah; As] [Qs; Kc; Kd; Kh; Ks].
Proof.
  split; [vm_compute; reflexivity|].
  apply (plo_evaluate_permutation_invariant codec table
           [As; Ah; Ad; Ac] [Ks; Kh; Kd; Kc; Qs]
           [Ac; Ad; Ah; As] [Qs; Kc; Kd; Kh; Ks]).
  - exact (Permutation_rev [As; Ah; Ad; Ac]).
  - exact (Permutation_rev [Ks; Kh; Kd; Kc; Qs]).
  - vm_compute. reflexivity.
Defined.

Lemma get_rank_class_negative_witness :
  constants_ok table = true
  /\ (exists c, Evaluator.get_rank_class table (-5) = Ok c)
  /\ (0 <= MAX_STRAIGHT_FLUSH table ->
      Evaluator.get_rank_class table (-5)
      = dict_get (MAX_TO_RANK_CLASS table) (MAX_STRAIGHT_FLUSH table)).
Proof.
  split; [vm_compute; reflexivity|].
  apply (get_rank_class_negative table (-5)); [vm_compute; reflexivity | lia].
Defined.

Lemma get_rank_class_least_cut_point_witness :
  constants_ok table = true
  /\ 166 ∈ cut_points table
  /\ Evaluator.get_rank_class table 166
     = dict_get (MAX_TO_RANK_CLASS table) 166.
Proof.
  split; [vm_compute; reflexivity|].
  assert (Hcut : 166 ∈ cut_points table) by (do 2 right; left).
  split; [exact Hcut|].
  destruct (get_rank_class_least_cut_point table 166) as [_ Hown];
    [vm_compute; reflexivity | lia |].
  exact (Hown Hcut).
Defined.

Lemma rank_percentage_strictly_increasing_witness :
  MAX_HIGH_CARD table = 7462
  /\ exists f1 f2,
       Evaluator.get_five_card_rank_percentage table 1 = Ok f1 /\
       Evaluator.get_five_card_rank_percentage table 7462 = Ok f2 /\
       SFltb f1 f2 = true.
Proof.
  split; [reflexivity|].
  apply (rank_percentage_strictly_increasing table 1 7462); [reflexivity | lia..].
Defined.

Lemma hand_summary_two_card_hands_witness :
  Evaluator.hand_summary codec table [Ad; Ac; Ks; Kh; Kd]
    [("A"%string, [As; Ah]); ("B"%string, [Kc; Qs])] = Ok ["A"%string]
  /\ Forall (fun item : string * list Z => length item.2 = Evaluator.HAND_LENGTH)
       [("A"%string, [As; Ah]); ("B"%string, [Kc; Qs])].
Proof.
  split; [vm_compute; reflexivity|].
  apply (hand_summary_two_card_hands codec table [Ad; Ac; Ks; Kh; Kd]
           [("A"%string, [As; Ah]); ("B"%string, [Kc; Qs])] ["A"%string]).
  vm_compute. reflexivity.
Defined.

Lemma hand_summary_has_a_winner_witness :
  Evaluator.hand_summary_of table (Evaluator.evaluate codec table)
    [Ad; Ac; Ks; Kh; Kd] [("A"%string, [As; Ah]); ("B"%string, [Kc; Qs])]
  = Ok ["A"%string]
  /\ ["A"%string] <> [].
Proof.
  split; [vm_compute; reflexivity|].
  apply (hand_summary_has_a_winner table (Evaluator.evaluate codec table)
           [Ad; Ac; Ks; Kh; Kd]
           [("A"%string, [As; Ah]); ("B"%string, [Kc; Qs])]).
  - vm_compute. reflexivity.
  - discriminate.
  - vm_compute. reflexivity.
Defined.

Example omaha_summary_of_one_player :
  PLOEvaluator.hand_summary codec table [Ks; Kh; Kd; Kc; Qs]
    [("A"%string, [As; Ah; Ad; Ac])]
  = Ok ["A"%string].
Proof. vm_compute. reflexivity. Qed.

End FurtherSamples.
